(** * Learning Walk Assistant: the observation model, save, export and feedback

    A shallow embedding of [src/App.tsx] with its constants and types, and of the
    parts of the browser platform those handlers call (strings, [Date], [JSON],
    [localStorage], [encodeURIComponent]).

    Strings are byte strings: a [string] holds the UTF-8 bytes of the text of a
    JavaScript string.  Every separator the program looks for (comma, line
    feed, double quote, [T]) is ASCII, and an ASCII byte never occurs inside a
    multi-byte UTF-8 sequence, so splitting, joining and replacing on bytes
    agree with the same operations on the text.  (A string with a lone
    surrogate has no such text and is outside the model.) *)

From Stdlib Require Import String Ascii List ZArith Lia Bool.
From stdpp Require Import gmap strings.
Import ListNotations.

#[local] Open Scope string_scope.
#[local] Open Scope Z_scope.

(** ** JavaScript strings: the operations the handlers use *)

Module JsString.

Definition LF : ascii := "010"%char.
Definition dquote : ascii := "034"%char.
Definition comma : ascii := ","%char.

(** A string of one character. *)
Definition str1 (c : ascii) : string := String c EmptyString.

(** [ToBoolean] on a string: only the empty string is falsy. *)
Definition truthy (s : string) : bool :=
  match s with
  | EmptyString => false
  | String _ _ => true
  end.

(** [a || b] on strings. *)
Definition or_else (a b : string) : string := if truthy a then a else b.

(** [Array.prototype.join]: no separator around a single element, the empty
    string for the empty array. *)
Fixpoint join (sep : string) (l : list string) : string :=
  match l with
  | [] => EmptyString
  | [x] => x
  | x :: t => x ++ sep ++ join sep t
  end.

(** [String.prototype.split] with a separator of one character: the pieces
    between the occurrences, so the empty string splits into one empty piece. *)
Fixpoint split (sep : ascii) (s : string) : list string :=
  match s with
  | EmptyString => [EmptyString]
  | String c s' =>
      if Ascii.eqb c sep then EmptyString :: split sep s'
      else match split sep s' with
           | [] => [str1 c]
           | h :: t => String c h :: t
           end
  end.

(** [s.replace(/c/g, by)] for a pattern of one literal character. *)
Fixpoint replace_all (c : ascii) (by_ : string) (s : string) : string :=
  match s with
  | EmptyString => EmptyString
  | String x s' =>
      if Ascii.eqb x c then by_ ++ replace_all c by_ s'
      else String x (replace_all c by_ s')
  end.

(** Number of occurrences of a character. *)
Fixpoint count (c : ascii) (s : string) : nat :=
  match s with
  | EmptyString => 0%nat
  | String x s' => ((if Ascii.eqb x c then 1 else 0) + count c s')%nat
  end.

(** The rest of [s] after the character [c], when [s] starts with it. *)
Definition expect (c : ascii) (s : string) : option string :=
  match s with
  | String x s' => if Ascii.eqb x c then Some s' else None
  | EmptyString => None
  end.

(** A decimal digit. *)
Definition isDigit (c : ascii) : bool :=
  let n := N_of_ascii c in ((48 <=? n) && (n <=? 57))%N.

End JsString.

(** ** The platform the handlers run on

    What the code reads from its surroundings: the clock, the time zone, the
    engine's date heuristics, the default locale, the download capability of
    anchors and the storage quota.  Every handler below takes the platform as
    its first argument. *)

Record Platform := {
  (** time value (milliseconds since the epoch, UTC) that [new Date()] reads *)
  now : Z;
  (** offset of local time from UTC in milliseconds; one fixed offset, zone
      transitions are not modelled *)
  localTZA : Z;
  (** what [Date.parse] makes of a string outside the ECMAScript date-time
      format (left to the engine by the standard) *)
  legacyDateParse : string -> option Z;
  (** the default locale's rendering of an hour and a minute, both two-digit *)
  localeTimeString : Z -> Z -> string;
  (** [link.download !== undefined] on an anchor element *)
  downloadSupported : bool;
  (** whether [localStorage.setItem key value] is accepted: a refused write
      throws (quota exceeded, storage disabled) *)
  storageAccepts : string -> string -> bool
}.

(** ** [Date]: time values, the calendar, parsing and rendering *)

Module JsDate.
Import JsString.

Definition msPerDay : Z := 86400000.
Definition msPerHour : Z := 3600000.
Definition msPerMinute : Z := 60000.
Definition msPerSecond : Z := 1000.

Definition Day (t : Z) : Z := t / msPerDay.
Definition TimeWithinDay (t : Z) : Z := t mod msPerDay.

Definition InLeapYear (y : Z) : bool :=
  (y mod 4 =? 0) && (negb (y mod 100 =? 0) || (y mod 400 =? 0)).

(** Day number of the first day of year [y]. *)
Definition DayFromYear (y : Z) : Z :=
  365 * (y - 1970) + (y - 1969) / 4 - (y - 1901) / 100 + (y - 1601) / 400.

(** Day within the year of the first day of month [m] (0 = January). *)
Definition monthStart (leap : bool) (m : Z) : Z :=
  let l := if leap then 1 else 0 in
  match m with
  | 0 => 0
  | 1 => 31
  | 2 => 59 + l
  | 3 => 90 + l
  | 4 => 120 + l
  | 5 => 151 + l
  | 6 => 181 + l
  | 7 => 212 + l
  | 8 => 243 + l
  | 9 => 273 + l
  | 10 => 304 + l
  | _ => 334 + l
  end.

Definition DaysInMonth (leap : bool) (m : Z) : Z :=
  match m with
  | 1 => if leap then 29 else 28
  | 3 | 5 | 8 | 10 => 30
  | _ => 31
  end.

(** [MakeDay(year, month, date)]: month counted from 0 and carried into the
    year, date counted from 1 and free to run past the end of the month. *)
Definition MakeDay (year month date : Z) : Z :=
  let ym := year + month / 12 in
  let mn := month mod 12 in
  DayFromYear ym + monthStart (InLeapYear ym) mn + date - 1.

Definition MakeTime (h m s ms : Z) : Z :=
  h * msPerHour + m * msPerMinute + s * msPerSecond + ms.

Definition MakeDate (day time : Z) : Z := day * msPerDay + time.

(** A time value further than 10^8 days from the epoch is no date (NaN). *)
Definition TimeClip (t : Z) : option Z :=
  if Z.abs t <=? 8640000000000000 then Some t else None.

(** The year a day number falls in, the [y] with
    [DayFromYear y <= day < DayFromYear (y + 1)]: an estimate from the mean
    length of a year (146097 days in 400 years), set right by one where it
    is off. *)
Definition YearFromDay (day : Z) : Z :=
  let y := 1970 + 400 * day / 146097 in
  if day <? DayFromYear y then y - 1
  else if DayFromYear (y + 1) <=? day then y + 1
  else y.

(** The month (0 = January) a day within a year falls in. *)
Definition MonthFromDay (leap : bool) (dayInYear : Z) : Z :=
  if dayInYear <? monthStart leap 1 then 0
  else if dayInYear <? monthStart leap 2 then 1
  else if dayInYear <? monthStart leap 3 then 2
  else if dayInYear <? monthStart leap 4 then 3
  else if dayInYear <? monthStart leap 5 then 4
  else if dayInYear <? monthStart leap 6 then 5
  else if dayInYear <? monthStart leap 7 then 6
  else if dayInYear <? monthStart leap 8 then 7
  else if dayInYear <? monthStart leap 9 then 8
  else if dayInYear <? monthStart leap 10 then 9
  else if dayInYear <? monthStart leap 11 then 10
  else 11.

Definition YearFromTime (t : Z) : Z := YearFromDay (Day t).
Definition DayWithinYear (t : Z) : Z := Day t - DayFromYear (YearFromTime t).
Definition MonthFromTime (t : Z) : Z :=
  MonthFromDay (InLeapYear (YearFromTime t)) (DayWithinYear t).
Definition DateFromTime (t : Z) : Z :=
  DayWithinYear t
  - monthStart (InLeapYear (YearFromTime t)) (MonthFromTime t) + 1.
Definition HourFromTime (t : Z) : Z := (t / msPerHour) mod 24.
Definition MinFromTime (t : Z) : Z := (t / msPerMinute) mod 60.
Definition SecFromTime (t : Z) : Z := (t / msPerSecond) mod 60.
Definition msFromTime (t : Z) : Z := t mod msPerSecond.

Definition LocalTime (P : Platform) (t : Z) : Z := t + localTZA P.
Definition UTC (P : Platform) (t : Z) : Z := t - localTZA P.

(** *** Decimal digits *)

Definition digitChar (n : Z) : ascii := ascii_of_N (48 + Z.to_N n).

Definition digitVal (c : ascii) : option Z :=
  let n := Z.of_N (N_of_ascii c) in
  if (48 <=? n) && (n <=? 57) then Some (n - 48) else None.

(** The [w] lowest decimal digits of [n] in front of [acc]. *)
Fixpoint padTo (w : nat) (n : Z) (acc : string) : string :=
  match w with
  | O => acc
  | S w' => padTo w' (n / 10) (String (digitChar (n mod 10)) acc)
  end.

(** [n] written with exactly [w] digits, zero-padded. *)
Definition pad (w : nat) (n : Z) : string := padTo w n EmptyString.

(** [n >= 0] written with as many digits as it has (one for 0). *)
Fixpoint decimalFuel (fuel : nat) (n : Z) (acc : string) : string :=
  let acc' := String (digitChar (n mod 10)) acc in
  match fuel with
  | O => acc'
  | S f => if n <? 10 then acc' else decimalFuel f (n / 10) acc'
  end.

Definition decimal (n : Z) : string :=
  decimalFuel (Z.to_nat (Z.log2 n)) n EmptyString.

(** *** [toISOString]: the UTC fields as [YYYY-MM-DDTHH:mm:ss.sssZ], the year
    with a sign and six digits outside 0..9999 *)

Definition isoYear (y : Z) : string :=
  if (0 <=? y) && (y <=? 9999) then pad 4 y
  else (if y <? 0 then "-" else "+") ++ pad 6 (Z.abs y).

Definition toISOString (t : Z) : string :=
  isoYear (YearFromTime t) ++ "-" ++ pad 2 (MonthFromTime t + 1) ++ "-"
  ++ pad 2 (DateFromTime t) ++ "T" ++ pad 2 (HourFromTime t) ++ ":"
  ++ pad 2 (MinFromTime t) ++ ":" ++ pad 2 (SecFromTime t) ++ "."
  ++ pad 3 (msFromTime t) ++ "Z".

(** *** Parsing the ECMAScript date-time string format *)

(** Exactly [n] digits, read as a number on top of [acc]. *)
Fixpoint digits (n : nat) (s : string) (acc : Z) : option (Z * string) :=
  match n with
  | O => Some (acc, s)
  | S n' =>
      match s with
      | String c s' => v ← digitVal c; digits n' s' (10 * acc + v)
      | EmptyString => None
      end
  end.

(** Where a time is read: no offset written, or one in milliseconds. *)
Inductive Zone := ZoneLocal | ZoneOffset (ms : Z).

Record DateTimeFields := {
  fYear : Z; fMonth : Z; fDay : Z;
  fHour : Z; fMinute : Z; fSecond : Z; fMilli : Z;
  fZone : Zone
}.

(** [YYYY], or a sign and six digits ([-000000] is excluded). *)
Definition parseYear (s : string) : option (Z * string) :=
  match s with
  | String "+" s' => digits 6 s' 0
  | String "-" s' =>
      '(y, r) ← digits 6 s' 0; if y =? 0 then None else Some (- y, r)
  | _ => digits 4 s 0
  end.

(** [YYYY], [YYYY-MM] or [YYYY-MM-DD]. *)
Definition parseDatePart (s : string) : option (Z * Z * Z * string) :=
  '(y, r) ← parseYear s;
  match expect "-" r with
  | None => Some (y, 1, 1, r)
  | Some r1 =>
      '(m, r2) ← digits 2 r1 0;
      match expect "-" r2 with
      | None => Some (y, m, 1, r2)
      | Some r3 => '(d, r4) ← digits 2 r3 0; Some (y, m, d, r4)
      end
  end.

(** [HH:mm], [HH:mm:ss] or [HH:mm:ss.sss]. *)
Definition parseTimePart (s : string) : option (Z * Z * Z * Z * string) :=
  '(h, r1) ← digits 2 s 0;
  r2 ← expect ":" r1;
  '(mi, r3) ← digits 2 r2 0;
  match expect ":" r3 with
  | None => Some (h, mi, 0, 0, r3)
  | Some r4 =>
      '(sec, r5) ← digits 2 r4 0;
      match expect "." r5 with
      | None => Some (h, mi, sec, 0, r5)
      | Some r6 => '(ms, r7) ← digits 3 r6 0; Some (h, mi, sec, ms, r7)
      end
  end.

(** Nothing (local time), [Z], or a sign and [HH:mm]; nothing may follow. *)
Definition parseZone (s : string) : option Zone :=
  match s with
  | EmptyString => Some ZoneLocal
  | String "Z" EmptyString => Some (ZoneOffset 0)
  | String sg s' =>
      if Ascii.eqb sg "+" || Ascii.eqb sg "-" then
        '(h, r1) ← digits 2 s' 0;
        r2 ← expect ":" r1;
        '(mi, r3) ← digits 2 r2 0;
        match r3 with
        | EmptyString =>
            let off := h * msPerHour + mi * msPerMinute in
            Some (ZoneOffset (if Ascii.eqb sg "-" then - off else off))
        | String _ _ => None
        end
      else None
  end.

(** The fields a string of the format writes.  A date with no time is read
    as UTC, a date with a time and no offset as local time. *)
Definition parseFormat (s : string) : option DateTimeFields :=
  '(y, m, d, r) ← parseDatePart s;
  match r with
  | EmptyString =>
      Some {| fYear := y; fMonth := m; fDay := d; fHour := 0; fMinute := 0;
              fSecond := 0; fMilli := 0; fZone := ZoneOffset 0 |}
  | String "T" r1 =>
      '(h, mi, sec, ms, r2) ← parseTimePart r1;
      z ← parseZone r2;
      Some {| fYear := y; fMonth := m; fDay := d; fHour := h; fMinute := mi;
              fSecond := sec; fMilli := ms; fZone := z |}
  | String _ _ => None
  end.

(** Element values in range: months 01-12, days 01-31, 24:00:00 as the one
    time past 23:59:59.999. *)
Definition fieldsInRange (f : DateTimeFields) : bool :=
  (1 <=? fMonth f) && (fMonth f <=? 12) && (1 <=? fDay f) && (fDay f <=? 31)
  && (fMinute f <=? 59) && (fSecond f <=? 59)
  && ((fHour f <=? 23)
      || ((fHour f =? 24) && (fMinute f =? 0) && (fSecond f =? 0)
          && (fMilli f =? 0))).

(** The time value of the fields.  A day past the end of its month runs into
    the next month, as [MakeDay] counts it (engines differ there). *)
Definition timeOfFields (P : Platform) (f : DateTimeFields) : Z :=
  let t := MakeDate (MakeDay (fYear f) (fMonth f - 1) (fDay f))
                    (MakeTime (fHour f) (fMinute f) (fSecond f) (fMilli f)) in
  match fZone f with
  | ZoneLocal => UTC P t
  | ZoneOffset off => t - off
  end.

(** [new Date(s)]: [None] is the invalid date (time value NaN). *)
Definition new_Date (P : Platform) (s : string) : option Z :=
  match parseFormat s with
  | Some f => if fieldsInRange f then TimeClip (timeOfFields P f) else None
  | None => legacyDateParse P s ≫= TimeClip
  end.

(** *** Rendering in local time *)

Definition invalidDate : string := "Invalid Date".

(** The year as a locale writes it: the year of the era, unpadded. *)
Definition yearOfEra (y : Z) : Z := if y <=? 0 then 1 - y else y.

(** [toLocaleDateString('en-CA')]: year, month and day of the local time as
    [y-MM-dd]. *)
Definition toLocaleDateString_enCA (P : Platform) (d : option Z) : string :=
  match d with
  | None => invalidDate
  | Some t =>
      let lt := LocalTime P t in
      decimal (yearOfEra (YearFromTime lt)) ++ "-"
      ++ pad 2 (MonthFromTime lt + 1) ++ "-" ++ pad 2 (DateFromTime lt)
  end.

(** [toLocaleTimeString([], { hour: '2-digit', minute: '2-digit' })]: hour
    and minute of the local time as the default locale writes them. *)
Definition toLocaleTimeString_hm (P : Platform) (d : option Z) : string :=
  match d with
  | None => invalidDate
  | Some t =>
      let lt := LocalTime P t in
      localeTimeString P (HourFromTime lt) (MinFromTime lt)
  end.

End JsDate.

(** ** [JSON]: values, [JSON.stringify] and [JSON.parse] *)

Module JSON.
Import JsString.

Definition backslash : ascii := "092"%char.

(** A number is kept as the text that writes it: no field of an observation
    is a number, and floating point is left out of the model. *)
#[warnings="-register-all"]
Inductive value :=
| JNull
| JBool (b : bool)
| JNumber (lexeme : string)
| JString (s : string)
| JArray (items : list value)
| JObject (members : list (string * value)).

(** *** Writing *)

Definition hexDigit (n : N) : ascii :=
  if (n <? 10)%N then ascii_of_N (48 + n) else ascii_of_N (87 + n).

(** [QuoteJSONString] on one character: the short escapes, [\u00xx] for the
    other control characters, everything else as it is. *)
Definition escapeChar (c : ascii) : string :=
  let n := N_of_ascii c in
  if (n =? 8)%N then String backslash "b"
  else if (n =? 9)%N then String backslash "t"
  else if (n =? 10)%N then String backslash "n"
  else if (n =? 12)%N then String backslash "f"
  else if (n =? 13)%N then String backslash "r"
  else if (n =? 34)%N then String backslash (str1 dquote)
  else if (n =? 92)%N then String backslash (str1 backslash)
  else if (n <? 32)%N then
    String backslash
      (String "u" (String "0" (String "0"
         (String (hexDigit (n / 16)) (str1 (hexDigit (n mod 16)))))))
  else str1 c.

Fixpoint escape (s : string) : string :=
  match s with
  | EmptyString => EmptyString
  | String c s' => escapeChar c ++ escape s'
  end.

Definition quote (s : string) : string :=
  String dquote (escape s ++ str1 dquote).

(** [JSON.stringify(v)] with no indentation: members and items in their
    order, separated by commas, no white space. *)
Fixpoint stringify (v : value) : string :=
  match v with
  | JNull => "null"
  | JBool true => "true"
  | JBool false => "false"
  | JNumber lexeme => lexeme
  | JString s => quote s
  | JArray items => "[" ++ join "," (map stringify items) ++ "]"
  | JObject members =>
      "{" ++ join "," (map (fun kv => quote (fst kv) ++ ":" ++ stringify (snd kv))
                           members) ++ "}"
  end.

(** *** Reading *)

Definition isWs (c : ascii) : bool :=
  let n := N_of_ascii c in
  ((n =? 32) || (n =? 9) || (n =? 10) || (n =? 13))%N.

Fixpoint skipWs (s : string) : string :=
  match s with
  | EmptyString => EmptyString
  | String c s' => if isWs c then skipWs s' else s
  end.

Definition hexVal (c : ascii) : option N :=
  let n := N_of_ascii c in
  if ((48 <=? n) && (n <=? 57))%N then Some (n - 48)%N
  else if ((97 <=? n) && (n <=? 102))%N then Some (n - 87)%N
  else if ((65 <=? n) && (n <=? 70))%N then Some (n - 55)%N
  else None.

Definition hex4 (a b c d : ascii) : option N :=
  x ← hexVal a; y ← hexVal b; z ← hexVal c; w ← hexVal d;
  Some (((x * 16 + y) * 16 + z) * 16 + w)%N.

(** The UTF-8 bytes of a code point (a lone surrogate gets the three bytes of
    its number). *)
Definition utf8 (cp : N) : string :=
  (if cp <? 128 then str1 (ascii_of_N cp)
   else if cp <? 2048 then
     String (ascii_of_N (192 + cp / 64)) (str1 (ascii_of_N (128 + cp mod 64)))
   else if cp <? 65536 then
     String (ascii_of_N (224 + cp / 4096))
       (String (ascii_of_N (128 + (cp / 64) mod 64))
          (str1 (ascii_of_N (128 + cp mod 64))))
   else
     String (ascii_of_N (240 + cp / 262144))
       (String (ascii_of_N (128 + (cp / 4096) mod 64))
          (String (ascii_of_N (128 + (cp / 64) mod 64))
             (str1 (ascii_of_N (128 + cp mod 64))))))%N.

(** The code point of a high surrogate [hi] followed by the escape
    [\u l1 l2 l3 l4], when that is a low surrogate. *)
Definition surrogatePair (hi : N) (b u l1 l2 l3 l4 : ascii) : option N :=
  if ((55296 <=? hi) && (hi <=? 56319))%N && Ascii.eqb b backslash
     && Ascii.eqb u "u" then
    lo ← hex4 l1 l2 l3 l4;
    if ((56320 <=? lo) && (lo <=? 57343))%N
    then Some (65536 + (hi - 55296) * 1024 + (lo - 56320))%N
    else None
  else None.

Definition prepend (p : string) (r : option (string * string))
  : option (string * string) :=
  '(s, rest) ← r; Some (p ++ s, rest).

(** The characters of a string literal after its opening quote, unescaped,
    and what follows the closing quote. *)
Fixpoint parseStringBody (s : string) : option (string * string) :=
  match s with
  | EmptyString => None
  | String c s1 =>
      if Ascii.eqb c dquote then Some (EmptyString, s1)
      else if Ascii.eqb c backslash then
        match s1 with
        | EmptyString => None
        | String e s2 =>
            if Ascii.eqb e "u" then
              match s2 with
              | String h1 (String h2 (String h3 (String h4 s3))) =>
                  match hex4 h1 h2 h3 h4 with
                  | None => None
                  | Some n =>
                      match s3 with
                      | String b (String u (String l1 (String l2
                          (String l3 (String l4 s4))))) =>
                          match surrogatePair n b u l1 l2 l3 l4 with
                          | Some cp => prepend (utf8 cp) (parseStringBody s4)
                          | None => prepend (utf8 n) (parseStringBody s3)
                          end
                      | _ => prepend (utf8 n) (parseStringBody s3)
                      end
                  end
              | _ => None
              end
            else if Ascii.eqb e dquote then prepend (str1 dquote) (parseStringBody s2)
            else if Ascii.eqb e backslash then prepend (str1 backslash) (parseStringBody s2)
            else if Ascii.eqb e "/" then prepend "/" (parseStringBody s2)
            else if Ascii.eqb e "b" then prepend (str1 "008") (parseStringBody s2)
            else if Ascii.eqb e "f" then prepend (str1 "012") (parseStringBody s2)
            else if Ascii.eqb e "n" then prepend (str1 "010") (parseStringBody s2)
            else if Ascii.eqb e "r" then prepend (str1 "013") (parseStringBody s2)
            else if Ascii.eqb e "t" then prepend (str1 "009") (parseStringBody s2)
            else None
        end
      else if (N_of_ascii c <? 32)%N then None
      else prepend (str1 c) (parseStringBody s1)
  end.

(** The longest run of digits at the start of [s], and the rest. *)
Fixpoint spanDigits (s : string) : string * string :=
  match s with
  | String c s' =>
      if isDigit c then let '(d, r) := spanDigits s' in (String c d, r)
      else (EmptyString, s)
  | EmptyString => (EmptyString, EmptyString)
  end.

(** One or more digits. *)
Definition digits1 (s : string) : option (string * string) :=
  match spanDigits s with
  | (EmptyString, _) => None
  | (d, r) => Some (d, r)
  end.

(** A number token: an optional minus, [0] or digits not starting with 0, an
    optional fraction, an optional exponent. *)
Definition lexNumber (s : string) : option (string * string) :=
  let '(sign, s0) :=
    match s with
    | String "-" r => ("-", r)
    | _ => (EmptyString, s)
    end in
  '(int, s1) ←
    match s0 with
    | String "0" r => Some ("0", r)
    | _ => digits1 s0
    end;
  '(frac, s2) ←
    match s1 with
    | String "." r => '(d, r') ← digits1 r; Some (String "." d, r')
    | _ => Some (EmptyString, s1)
    end;
  '(exp, s3) ←
    match s2 with
    | String e r =>
        if Ascii.eqb e "e" || Ascii.eqb e "E" then
          let '(sg, r0) :=
            match r with
            | String "+" r' => ("+", r')
            | String "-" r' => ("-", r')
            | _ => (EmptyString, r)
            end in
          '(d, r') ← digits1 r0; Some (String e (sg ++ d), r')
        else Some (EmptyString, s2)
    | EmptyString => Some (EmptyString, s2)
    end;
  Some (sign ++ int ++ frac ++ exp, s3).

(** The rest of [s] after the characters of [lit]. *)
Fixpoint literal (lit s : string) : option string :=
  match lit with
  | EmptyString => Some s
  | String c lit' => s' ← expect c s; literal lit' s'
  end.

(** A value at the start of [s] (after white space) and what follows it; the
    items of an array after its bracket; the members of an object after its
    brace.  [fuel] bounds the depth of the descent. *)
Fixpoint parseValue (fuel : nat) (s : string) : option (value * string) :=
  match fuel with
  | O => None
  | S fuel' =>
      match skipWs s with
      | EmptyString => None
      | String c r =>
          if Ascii.eqb c "{" then
            match expect "}" (skipWs r) with
            | Some r' => Some (JObject [], r')
            | None => '(m, r') ← parseMembers fuel' r; Some (JObject m, r')
            end
          else if Ascii.eqb c "[" then
            match expect "]" (skipWs r) with
            | Some r' => Some (JArray [], r')
            | None => '(l, r') ← parseElements fuel' r; Some (JArray l, r')
            end
          else if Ascii.eqb c dquote then
            '(str, r') ← parseStringBody r; Some (JString str, r')
          else if Ascii.eqb c "t" then
            r' ← literal "rue" r; Some (JBool true, r')
          else if Ascii.eqb c "f" then
            r' ← literal "alse" r; Some (JBool false, r')
          else if Ascii.eqb c "n" then
            r' ← literal "ull" r; Some (JNull, r')
          else
            '(lexeme, r') ← lexNumber (String c r); Some (JNumber lexeme, r')
      end
  end
with parseElements (fuel : nat) (s : string) : option (list value * string) :=
  match fuel with
  | O => None
  | S fuel' =>
      '(v, r) ← parseValue fuel' s;
      match skipWs r with
      | EmptyString => None
      | String c r' =>
          if Ascii.eqb c "," then
            '(vs, r'') ← parseElements fuel' r'; Some (v :: vs, r'')
          else if Ascii.eqb c "]" then Some ([v], r')
          else None
      end
  end
with parseMembers (fuel : nat) (s : string)
  : option (list (string * value) * string) :=
  match fuel with
  | O => None
  | S fuel' =>
      r0 ← expect dquote (skipWs s);
      '(k, r1) ← parseStringBody r0;
      r2 ← expect ":" (skipWs r1);
      '(v, r) ← parseValue fuel' r2;
      match skipWs r with
      | EmptyString => None
      | String c r' =>
          if Ascii.eqb c "," then
            '(ms, r'') ← parseMembers fuel' r'; Some ((k, v) :: ms, r'')
          else if Ascii.eqb c "}" then Some ([(k, v)], r')
          else None
      end
  end.

(** [JSON.parse(text)]: one value with white space around it; [None] is the
    [SyntaxError] thrown for any other text.  Every value, item and member
    takes at least one character, so the length of the text bounds the
    descent. *)
Definition parse (text : string) : option value :=
  '(v, r) ← parseValue (S (String.length text)) text;
  match skipWs r with
  | EmptyString => Some v
  | String _ _ => None
  end.

(** Reading a property: the last member of that name (a later duplicate
    overrides an earlier one). *)
Fixpoint getProp (k : string) (members : list (string * value)) : option value :=
  match members with
  | [] => None
  | (k', v) :: rest =>
      match getProp k rest with
      | Some x => Some x
      | None => if String.eqb k' k then Some v else None
      end
  end.

(** *** Measures of a value and of its text *)

(** Values without numbers: the ones the program stores. *)
Fixpoint numFree (v : value) : bool :=
  match v with
  | JNumber _ => false
  | JArray items => forallb numFree items
  | JObject members => forallb (fun kv => numFree (snd kv)) members
  | _ => true
  end.

(** Fuel that suffices to read a value back: one for the value, and one more
    for every item or member on top of its own. *)
Fixpoint weight (v : value) : nat :=
  match v with
  | JArray items => S (list_sum (map (fun c => S (weight c)) items))
  | JObject members => S (list_sum (map (fun kv => S (weight (snd kv))) members))
  | _ => 1%nat
  end.

(** The text of one member. *)
Definition memberText (kv : string * value) : string :=
  quote (fst kv) ++ ":" ++ stringify (snd kv).

(** A text that starts with a character that is neither white space nor a
    closing bracket or brace. *)
Definition opens (s : string) : Prop :=
  exists c r, s = String c r /\ isWs c = false
              /\ Ascii.eqb c "]" = false /\ Ascii.eqb c "}" = false.

End JSON.

(** ** [encodeURIComponent] *)

Module JsURI.
Import JsString.

(** Letters, digits and [- _ . ! ~ * ' ( )] stay as they are. *)
Definition unreserved (c : ascii) : bool :=
  let n := N_of_ascii c in
  (((65 <=? n) && (n <=? 90)) || ((97 <=? n) && (n <=? 122))
   || ((48 <=? n) && (n <=? 57))
   || (n =? 45) || (n =? 95) || (n =? 46) || (n =? 33) || (n =? 126)
   || (n =? 42) || (n =? 39) || (n =? 40) || (n =? 41))%N.

Definition upperHex (n : N) : ascii :=
  if (n <? 10)%N then ascii_of_N (48 + n) else ascii_of_N (55 + n).

(** Every other byte of the UTF-8 text becomes [%XX]. *)
Fixpoint encodeURIComponent (s : string) : string :=
  match s with
  | EmptyString => EmptyString
  | String c s' =>
      if unreserved c then String c (encodeURIComponent s')
      else String "%" (String (upperHex (N_of_ascii c / 16))
                         (String (upperHex (N_of_ascii c mod 16))
                            (encodeURIComponent s')))
  end.

End JsURI.

(** ** [types.ts] *)

Module Types.

Record TeachingStrategies := {
  miniWhiteboards : bool;
  thinkPairShare : bool;
  dumtums : bool;
  coldCalling : bool
}.

(** [type YearGroup = 'Year 7' | 'Year 8' | 'Year 9' | 'Year 10' | 'Year 11'] *)
Inductive YearGroup := Year7 | Year8 | Year9 | Year10 | Year11.

(** The string a [YearGroup] is at run time. *)
Definition YearGroup_string (y : YearGroup) : string :=
  match y with
  | Year7 => "Year 7"
  | Year8 => "Year 8"
  | Year9 => "Year 9"
  | Year10 => "Year 10"
  | Year11 => "Year 11"
  end.

(** [YearGroup | '']: [None] is the empty string. *)
Definition yearGroup_string (y : option YearGroup) : string :=
  match y with
  | Some g => YearGroup_string g
  | None => EmptyString
  end.

Record Observation := {
  id : string;
  dateTime : string;
  yearGroup : option YearGroup;
  teacherName : string;
  observationNotes : string;
  strategies : TeachingStrategies
}.

(** [keyof TeachingStrategies] *)
Inductive StrategyKey :=
| key_miniWhiteboards
| key_thinkPairShare
| key_dumtums
| key_coldCalling.

(** [strategies[key]] *)
Definition getStrategy (s : TeachingStrategies) (key : StrategyKey) : bool :=
  match key with
  | key_miniWhiteboards => miniWhiteboards s
  | key_thinkPairShare => thinkPairShare s
  | key_dumtums => dumtums s
  | key_coldCalling => coldCalling s
  end.

(** [{ ...strategies, [key]: checked }] *)
Definition setStrategy (s : TeachingStrategies) (key : StrategyKey)
  (checked : bool) : TeachingStrategies :=
  match key with
  | key_miniWhiteboards =>
      {| miniWhiteboards := checked; thinkPairShare := thinkPairShare s;
         dumtums := dumtums s; coldCalling := coldCalling s |}
  | key_thinkPairShare =>
      {| miniWhiteboards := miniWhiteboards s; thinkPairShare := checked;
         dumtums := dumtums s; coldCalling := coldCalling s |}
  | key_dumtums =>
      {| miniWhiteboards := miniWhiteboards s; thinkPairShare := thinkPairShare s;
         dumtums := checked; coldCalling := coldCalling s |}
  | key_coldCalling =>
      {| miniWhiteboards := miniWhiteboards s; thinkPairShare := thinkPairShare s;
         dumtums := dumtums s; coldCalling := checked |}
  end.

End Types.

(** ** [constants.ts] *)

Module Constants.
Import Types.

Definition YEAR_GROUPS : list YearGroup := [Year7; Year8; Year9; Year10; Year11].

Definition STRATEGY_KEYS : list StrategyKey :=
  [key_miniWhiteboards; key_thinkPairShare; key_dumtums; key_coldCalling].

(** [STRATEGY_LABELS[key]] *)
Definition STRATEGY_LABELS (key : StrategyKey) : string :=
  match key with
  | key_miniWhiteboards => "Use of mini whiteboards"
  | key_thinkPairShare => "Think-Pair-Share"
  | key_dumtums => "DUMTUMS"
  | key_coldCalling => "Cold calling"
  end.

(** The properties of the [STRATEGY_LABELS] literal in the order it writes
    them, which is the order [Object.values] follows. *)
Definition STRATEGY_LABELS_keys : list StrategyKey :=
  [key_miniWhiteboards; key_thinkPairShare; key_dumtums; key_coldCalling].

Definition Object_values_STRATEGY_LABELS : list string :=
  map STRATEGY_LABELS STRATEGY_LABELS_keys.

End Constants.

(** ** [localStorage] and the JSON form of the collection *)

Module Persistence.
Import JsString Types.

Definition getItem (ls : gmap string string) (key : string) : option string :=
  ls !! key.

(** [None] when the write throws. *)
Definition setItem (P : Platform) (ls : gmap string string) (key value : string)
  : option (gmap string string) :=
  if storageAccepts P key value then Some (<[key := value]> ls) else None.

(** The value [JSON.stringify] sees in a strategy set, an observation and the
    collection: the properties in the order the objects were built with
    ([getInitialFormState], kept by every spread). *)
Definition TeachingStrategies_value (s : TeachingStrategies) : JSON.value :=
  JSON.JObject
    [("miniWhiteboards", JSON.JBool (miniWhiteboards s));
     ("thinkPairShare", JSON.JBool (thinkPairShare s));
     ("dumtums", JSON.JBool (dumtums s));
     ("coldCalling", JSON.JBool (coldCalling s))].

Definition Observation_value (o : Observation) : JSON.value :=
  JSON.JObject
    [("id", JSON.JString (id o));
     ("dateTime", JSON.JString (dateTime o));
     ("yearGroup", JSON.JString (yearGroup_string (yearGroup o)));
     ("teacherName", JSON.JString (teacherName o));
     ("observationNotes", JSON.JString (observationNotes o));
     ("strategies", TeachingStrategies_value (strategies o))].

Definition observations_value (l : list Observation) : JSON.value :=
  JSON.JArray (map Observation_value l).

(** Reading a parsed value at the type the program gives it
    ([Observation[]]): the properties the type names, at their types. *)
Definition asString (v : JSON.value) : option string :=
  match v with
  | JSON.JString s => Some s
  | _ => None
  end.

Definition asBool (v : JSON.value) : option bool :=
  match v with
  | JSON.JBool b => Some b
  | _ => None
  end.

Definition asYearGroup (s : string) : option (option YearGroup) :=
  if String.eqb s EmptyString then Some None
  else if String.eqb s "Year 7" then Some (Some Year7)
  else if String.eqb s "Year 8" then Some (Some Year8)
  else if String.eqb s "Year 9" then Some (Some Year9)
  else if String.eqb s "Year 10" then Some (Some Year10)
  else if String.eqb s "Year 11" then Some (Some Year11)
  else None.

Definition asTeachingStrategies (v : JSON.value) : option TeachingStrategies :=
  match v with
  | JSON.JObject m =>
      a ← JSON.getProp "miniWhiteboards" m ≫= asBool;
      b ← JSON.getProp "thinkPairShare" m ≫= asBool;
      c ← JSON.getProp "dumtums" m ≫= asBool;
      d ← JSON.getProp "coldCalling" m ≫= asBool;
      Some {| miniWhiteboards := a; thinkPairShare := b; dumtums := c;
              coldCalling := d |}
  | _ => None
  end.

Definition asObservation (v : JSON.value) : option Observation :=
  match v with
  | JSON.JObject m =>
      i ← JSON.getProp "id" m ≫= asString;
      dt ← JSON.getProp "dateTime" m ≫= asString;
      yg ← (JSON.getProp "yearGroup" m ≫= asString) ≫= asYearGroup;
      tn ← JSON.getProp "teacherName" m ≫= asString;
      notes ← JSON.getProp "observationNotes" m ≫= asString;
      st ← JSON.getProp "strategies" m ≫= asTeachingStrategies;
      Some {| id := i; dateTime := dt; yearGroup := yg; teacherName := tn;
              observationNotes := notes; strategies := st |}
  | _ => None
  end.

Fixpoint asObservationList (l : list JSON.value) : option (list Observation) :=
  match l with
  | [] => Some []
  | v :: rest =>
      o ← asObservation v; os ← asObservationList rest; Some (o :: os)
  end.

Definition asObservations (v : JSON.value) : option (list Observation) :=
  match v with
  | JSON.JArray l => asObservationList l
  | _ => None
  end.

End Persistence.

(** ** [App.tsx]: the component's state and its handlers *)

Module App.
Import JsString Types Constants.

Definition nl : string := str1 LF.

Definition initialStrategies : TeachingStrategies :=
  {| miniWhiteboards := false; thinkPairShare := false; dumtums := false;
     coldCalling := false |}.

Definition getInitialFormState : Observation :=
  {| id := EmptyString; dateTime := EmptyString; yearGroup := None;
     teacherName := EmptyString; observationNotes := EmptyString;
     strategies := initialStrategies |}.

(** The three [useState] cells. *)
Record AppState := {
  observations : list Observation;
  formState : Observation;
  selectedObservation : option Observation
}.

Definition initialState : AppState :=
  {| observations := []; formState := getInitialFormState;
     selectedObservation := None |}.

(** What a handler does to the world outside the component's state. *)
Inductive Effect :=
| Alert (message : string)
| ConsoleError (message : string)
| Navigate (href : string)
| Download (filename type content : string).

Definition setObservations (l : list Observation) (st : AppState) : AppState :=
  {| observations := l; formState := formState st;
     selectedObservation := selectedObservation st |}.

Definition setFormState (f : Observation) (st : AppState) : AppState :=
  {| observations := observations st; formState := f;
     selectedObservation := selectedObservation st |}.

Definition setSelectedObservation (o : option Observation) (st : AppState)
  : AppState :=
  {| observations := observations st; formState := formState st;
     selectedObservation := o |}.

(** The change events of the four named controls: the date-time input, the
    year select (its options are the [YEAR_GROUPS]), the teacher input and
    the notes area. *)
Inductive InputChange :=
| change_dateTime (value : string)
| change_yearGroup (value : YearGroup)
| change_teacherName (value : string)
| change_observationNotes (value : string).

(** [{ ...prev, [name]: value }] *)
Definition handleInputChange (e : InputChange) (st : AppState) : AppState :=
  let prev := formState st in
  setFormState
    match e with
    | change_dateTime value =>
        {| id := id prev; dateTime := value; yearGroup := yearGroup prev;
           teacherName := teacherName prev;
           observationNotes := observationNotes prev;
           strategies := strategies prev |}
    | change_yearGroup value =>
        {| id := id prev; dateTime := dateTime prev; yearGroup := Some value;
           teacherName := teacherName prev;
           observationNotes := observationNotes prev;
           strategies := strategies prev |}
    | change_teacherName value =>
        {| id := id prev; dateTime := dateTime prev; yearGroup := yearGroup prev;
           teacherName := value; observationNotes := observationNotes prev;
           strategies := strategies prev |}
    | change_observationNotes value =>
        {| id := id prev; dateTime := dateTime prev; yearGroup := yearGroup prev;
           teacherName := teacherName prev; observationNotes := value;
           strategies := strategies prev |}
    end st.

Definition handleStrategyChange (name : StrategyKey) (checked : bool)
  (st : AppState) : AppState :=
  let prev := formState st in
  setFormState
    {| id := id prev; dateTime := dateTime prev; yearGroup := yearGroup prev;
       teacherName := teacherName prev;
       observationNotes := observationNotes prev;
       strategies := setStrategy (strategies prev) name checked |} st.

Definition resetForm (st : AppState) : AppState :=
  setFormState getInitialFormState st.

(** [formState.dateTime && formState.teacherName && formState.yearGroup],
    read as a condition. *)
Definition isFormValid (f : Observation) : bool :=
  truthy (dateTime f) && truthy (teacherName f)
  && truthy (yearGroup_string (yearGroup f)).

(** *** [handleSave] *)

(** [{ ...formState, id: new Date().toISOString() }] *)
Definition newObservation (P : Platform) (f : Observation) : Observation :=
  {| id := JsDate.toISOString (now P); dateTime := dateTime f;
     yearGroup := yearGroup f; teacherName := teacherName f;
     observationNotes := observationNotes f; strategies := strategies f |}.

Definition handleSave (P : Platform) (st : AppState) : AppState * list Effect :=
  let f := formState st in
  if negb (truthy (dateTime f)) || negb (truthy (teacherName f))
     || negb (truthy (yearGroup_string (yearGroup f)))
  then (st, [Alert "Please fill in Date/Time, Teacher Name, and Year Group."])
  else
    (resetForm (setObservations (newObservation P f :: observations st) st), []).

(** *** [handleEmail] *)

Definition formattedDate (P : Platform) (f : Observation) : string :=
  JsDate.toLocaleDateString_enCA P (JsDate.new_Date P (dateTime f)).

Definition subject (P : Platform) (f : Observation) : string :=
  "Learning Walk Feedback – " ++ teacherName f ++ " – " ++ formattedDate P f.

Definition strategiesList (f : Observation) : string :=
  join nl
    (map (fun key => "- " ++ STRATEGY_LABELS key)
         (List.filter (fun key => getStrategy (strategies f) key)
                      STRATEGY_KEYS)).

Definition body (f : Observation) : string :=
  "Hi " ++ teacherName f ++ "," ++ nl ++ nl
  ++ "Here is some feedback from a recent learning walk." ++ nl ++ nl
  ++ "Observation Notes:" ++ nl ++ observationNotes f ++ nl ++ nl
  ++ "Teaching Strategies Observed:" ++ nl
  ++ or_else (strategiesList f) "None specified" ++ nl ++ nl
  ++ "Best regards,".

Definition handleEmail (P : Platform) (st : AppState) : AppState * list Effect :=
  let f := formState st in
  if negb (truthy (teacherName f)) || negb (truthy (dateTime f))
  then (st, [Alert "Please provide a Teacher Name and Date before sending an email."])
  else
    (st, [Navigate ("ms-outlook://compose?subject="
                    ++ JsURI.encodeURIComponent (subject P f)
                    ++ "&body=" ++ JsURI.encodeURIComponent (body f))]).

(** *** [handleExport] *)

Definition headers : list string :=
  ["Date"; "Time"; "Year Group"; "Teacher Name"; "Observation Notes"]
  ++ Object_values_STRATEGY_LABELS.

Definition csvDate (P : Platform) (obs : Observation) : string :=
  JsDate.toLocaleDateString_enCA P (JsDate.new_Date P (dateTime obs)).

Definition csvTime (P : Platform) (obs : Observation) : string :=
  JsDate.toLocaleTimeString_hm P (JsDate.new_Date P (dateTime obs)).

(** Sanitize notes for CSV *)
Definition sanitizedNotes (obs : Observation) : string :=
  String dquote
    (replace_all dquote (String dquote (str1 dquote)) (observationNotes obs)
     ++ str1 dquote).

Definition strategyValues (obs : Observation) : list string :=
  map (fun key => if getStrategy (strategies obs) key then "Y" else "N")
      STRATEGY_KEYS.

(** The array a row is joined from, and the row. *)
Definition csvFields (P : Platform) (obs : Observation) : list string :=
  [csvDate P obs; csvTime P obs; yearGroup_string (yearGroup obs);
   teacherName obs; sanitizedNotes obs] ++ strategyValues obs.

Definition csvRow (P : Platform) (obs : Observation) : string :=
  join "," (csvFields P obs).

Definition csvRows (P : Platform) (l : list Observation) : list string :=
  map (csvRow P) l.

Definition csvString (P : Platform) (l : list Observation) : string :=
  join nl (join "," headers :: csvRows P l).

(** [learning_walks_${new Date().toISOString().split('T')[0]}.csv] *)
Definition exportFilename (P : Platform) : string :=
  "learning_walks_"
  ++ nth 0 (split "T" (JsDate.toISOString (now P))) "undefined" ++ ".csv".

Definition handleExport (P : Platform) (st : AppState) : AppState * list Effect :=
  match observations st with
  | [] => (st, [Alert "No observations to export."])
  | _ :: _ =>
      if downloadSupported P then
        (st, [Download (exportFilename P) "text/csv;charset=utf-8;"
                       (csvString P (observations st))])
      else (st, [])
  end.

(** *** The two storage effects *)

Definition storageKey : string := "learningWalks".

(** The effect that runs once after the first render.  [None]: the stored
    text parses to a value that is not an array of observations, which the
    state then holds against its type; this model follows the program no
    further. *)
Definition loadEffect (ls : gmap string string) (st : AppState)
  : option (AppState * list Effect) :=
  match Persistence.getItem ls storageKey with
  | None => Some (st, [])
  | Some storedObservations =>
      if truthy storedObservations then
        match JSON.parse storedObservations with
        | None =>
            Some (st, [ConsoleError "Failed to load observations from local storage"])
        | Some v =>
            l ← Persistence.asObservations v; Some (setObservations l st, [])
        end
      else Some (st, [])
  end.

(** The effect that runs after every render that changed [observations]. *)
Definition saveEffect (P : Platform) (ls : gmap string string) (st : AppState)
  : gmap string string * list Effect :=
  match Persistence.setItem P ls storageKey
          (JSON.stringify (Persistence.observations_value (observations st))) with
  | Some ls' => (ls', [])
  | None => (ls, [ConsoleError "Failed to save observations to local storage"])
  end.

End App.

(** ** [App.tsx]: what the component renders and how it runs

    The parts of the JSX that decide behaviour (the items of the details
    list, the [disabled] attributes of the three buttons), the events the
    rendered controls can raise, and the component in its browser: mounting
    with the two storage effects, and a render after every event. *)

Module View.
Import JsString Types Constants App.

(** The [<li>] items of the strategies list of [ObservationDetailsModal]:
    the label of every key whose flag is set, then [None observed] when
    every flag is clear. *)
Definition modalStrategyItems (observation : Observation) : list string :=
  (map STRATEGY_LABELS
       (List.filter (fun key => getStrategy (strategies observation) key)
                    STRATEGY_KEYS)
   ++ (if forallb (fun key => negb (getStrategy (strategies observation) key))
                  STRATEGY_KEYS
       then ["None observed"] else []))%list.

(** The strategies list of the modal; the modal renders nothing ([null])
    without an observation. *)
Definition ObservationDetailsModal (observation : option Observation)
  : option (list string) :=
  match observation with
  | None => None
  | Some o => Some (modalStrategyItems o)
  end.

(** [disabled={!formState.teacherName || !formState.dateTime}] *)
Definition sendFeedbackDisabled (st : AppState) : bool :=
  negb (truthy (teacherName (formState st)))
  || negb (truthy (dateTime (formState st))).

(** [disabled={observations.length === 0}] *)
Definition exportDisabled (st : AppState) : bool :=
  Nat.eqb (length (observations st)) 0.

(** [disabled={!isFormValid}] *)
Definition saveDisabled (st : AppState) : bool :=
  negb (isFormValid (formState st)).

(** What the rendered controls can raise: a change of one of the four named
    inputs or of a strategy check box, a click on one of the three footer
    buttons, a click on the [View Details] button of the [index]-th list
    item, the closing of the modal. *)
Inductive Event :=
| InputChanged (e : InputChange)
| StrategyChanged (name : StrategyKey) (checked : bool)
| SendFeedbackClicked
| ExportClicked
| SaveClicked
| ViewDetailsClicked (index : nat)
| ModalClosed.

(** The handler an event runs.  A disabled button raises no click; there is
    a [View Details] button for every saved observation and no other. *)
Definition handleEvent (P : Platform) (ev : Event) (st : AppState)
  : AppState * list Effect :=
  match ev with
  | InputChanged e => (handleInputChange e st, [])
  | StrategyChanged name checked => (handleStrategyChange name checked st, [])
  | SendFeedbackClicked =>
      if sendFeedbackDisabled st then (st, []) else handleEmail P st
  | ExportClicked => if exportDisabled st then (st, []) else handleExport P st
  | SaveClicked => if saveDisabled st then (st, []) else handleSave P st
  | ViewDetailsClicked index =>
      match nth_error (observations st) index with
      | Some obs => (setSelectedObservation (Some obs) st, [])
      | None => (st, [])
      end
  | ModalClosed => (setSelectedObservation None st, [])
  end.

(** Whether the event gives [observations] a new array, which is what makes
    the save effect run after the next render: only [handleSave] past its
    guard calls [setObservations]. *)
Definition setsObservations (ev : Event) (st : AppState) : bool :=
  match ev with
  | SaveClicked => isFormValid (formState st)
  | _ => false
  end.

(** The component in its browser: the store and the state. *)
Definition World : Type := gmap string string * AppState.

(** One event: its handler, the render, and the save effect when the
    observations are a new array. *)
Definition dispatch (P : Platform) (ev : Event) (w : World)
  : World * list Effect :=
  let '(st', effects) := handleEvent P ev (snd w) in
  if setsObservations ev (snd w) then
    let '(ls', effects') := saveEffect P (fst w) st' in
    ((ls', st'), effects ++ effects')%list
  else ((fst w, st'), effects).

(** A session after mounting: events one after the other, each on the
    platform as it is when the event arrives (the clock moves). *)
Fixpoint run (events : list (Platform * Event)) (w : World)
  : World * list Effect :=
  match events with
  | [] => (w, [])
  | (P, ev) :: rest =>
      let '(w1, effects1) := dispatch P ev w in
      let '(w2, effects2) := run rest w1 in
      (w2, effects1 ++ effects2)%list
  end.

(** Whether the load effect reaches [setObservations]. *)
Definition loadSetsObservations (ls : gmap string string) : bool :=
  match Persistence.getItem ls storageKey with
  | Some storedObservations =>
      truthy storedObservations
      && match JSON.parse storedObservations with
         | Some _ => true
         | None => false
         end
  | None => false
  end.

(** Mounting: the first render shows the initial state; then the effects run
    in the order they are written, the load effect reading the store and the
    save effect writing the first render's empty collection; when the load
    effect set the observations, the next render runs the save effect again
    with what was loaded.  [None] as for [loadEffect]. *)
Definition mount (P : Platform) (ls : gmap string string)
  : option (World * list Effect) :=
  '(st1, effects1) ← loadEffect ls initialState;
  let '(ls1, effects2) := saveEffect P ls initialState in
  if loadSetsObservations ls then
    let '(ls2, effects3) := saveEffect P ls1 st1 in
    Some ((ls2, st1), effects1 ++ effects2 ++ effects3)%list
  else Some ((ls1, st1), effects1 ++ effects2)%list.

(** An effect that is an [alert]. *)
Definition isAlert (e : Effect) : bool :=
  match e with
  | Alert _ => true
  | _ => false
  end.

(** A saved record: an id, a date-time, a teacher name and a year group. *)
Definition isSaved (o : Observation) : bool :=
  truthy (id o) && truthy (dateTime o) && truthy (teacherName o)
  && truthy (yearGroup_string (yearGroup o)).

(** The state as the component keeps it: the form has no id, every record of
    the collection is a saved one, and the record in the modal is one of the
    collection. *)
Definition wellFormed (st : AppState) : Prop :=
  id (formState st) = EmptyString
  /\ Forall (fun o => isSaved o = true) (observations st)
  /\ (forall o, selectedObservation st = Some o -> In o (observations st)).

(** The save clicks of a session. *)
Definition saveClicks (events : list (Platform * Event)) : nat :=
  length (List.filter (fun pe => match snd pe with
                                 | SaveClicked => true
                                 | _ => false
                                 end) events).

(** The store holds the collection of the state: its slot is the text the
    save effect writes for it. *)
Definition synced (w : World) : Prop :=
  Persistence.getItem (fst w) storageKey
  = Some (JSON.stringify (Persistence.observations_value (observations (snd w)))).

(** A browser whose store takes every write. *)
Definition accepting (P : Platform) : Prop :=
  forall key value, storageAccepts P key value = true.

(** A browser whose store refuses every write. *)
Definition refusing (P : Platform) : Prop :=
  forall key value, storageAccepts P key value = false.

(** The [name] attribute of the control a change comes from. *)
Definition inputName (e : InputChange) : string :=
  match e with
  | change_dateTime _ => "dateTime"
  | change_yearGroup _ => "yearGroup"
  | change_teacherName _ => "teacherName"
  | change_observationNotes _ => "observationNotes"
  end.

End View.

(** ** Concrete data for the examples below *)

Module Examples.
Import JsString Types App.

(** A browser in the UTC zone with a 24-hour clock, no date heuristics,
    downloads and room in its storage, on 1 March 2024 at 09:00:00.123. *)
Definition browser : Platform :=
  {| now := 1709283600123;
     localTZA := 0;
     legacyDateParse := fun _ => None;
     localeTimeString := fun h m => JsDate.pad 2 h ++ ":" ++ JsDate.pad 2 m;
     downloadSupported := true;
     storageAccepts := fun _ _ => true |}.

(** The form of the specification's end-to-end scenario. *)
Definition smithForm : Observation :=
  {| id := EmptyString; dateTime := "2024-03-01T09:00";
     yearGroup := Some Year8; teacherName := "J. Smith";
     observationNotes := "Good pacing."; strategies := initialStrategies |}.

Definition withNotes (notes : string) (o : Observation) : Observation :=
  {| id := id o; dateTime := dateTime o; yearGroup := yearGroup o;
     teacherName := teacherName o; observationNotes := notes;
     strategies := strategies o |}.

Definition withTeacherName (name : string) (o : Observation) : Observation :=
  {| id := id o; dateTime := dateTime o; yearGroup := yearGroup o;
     teacherName := name; observationNotes := observationNotes o;
     strategies := strategies o |}.

Definition withDateTime (value : string) (o : Observation) : Observation :=
  {| id := id o; dateTime := value; yearGroup := yearGroup o;
     teacherName := teacherName o; observationNotes := observationNotes o;
     strategies := strategies o |}.

Definition withYearGroup (value : option YearGroup) (o : Observation)
  : Observation :=
  {| id := id o; dateTime := dateTime o; yearGroup := value;
     teacherName := teacherName o; observationNotes := observationNotes o;
     strategies := strategies o |}.

Definition withStrategies (value : TeachingStrategies) (o : Observation)
  : Observation :=
  {| id := id o; dateTime := dateTime o; yearGroup := yearGroup o;
     teacherName := teacherName o; observationNotes := observationNotes o;
     strategies := value |}.

(** A saved record: the scenario's form under the id of an earlier save. *)
Definition smithSaved : Observation :=
  {| id := "2024-03-01T09:00:00.000Z"; dateTime := "2024-03-01T09:00";
     yearGroup := Some Year8; teacherName := "J. Smith";
     observationNotes := "Good pacing."; strategies := initialStrategies |}.

(** The notes [He said "great job"] and the cell they must produce. *)
Definition heSaid : string :=
  "He said " ++ String dquote ("great job" ++ str1 dquote).

Definition heSaidCell : string :=
  String dquote
    ("He said " ++ String dquote (String dquote
       ("great job" ++ String dquote (String dquote (str1 dquote))))).

(** Notes of two lines. *)
Definition twoLines : string := "Good start." ++ nl ++ "Slow finish.".

(** The strategy set of the specification's column example. *)
Definition yesNoYesNo : TeachingStrategies :=
  {| miniWhiteboards := true; thinkPairShare := false; dumtums := true;
     coldCalling := false |}.

(** The scenario's form as the user fills it in, control by control, and the
    state after saving it. *)
Definition smithFilled : AppState :=
  handleStrategyChange key_dumtums false
    (handleInputChange (change_observationNotes "Good pacing.")
       (handleInputChange (change_teacherName "J. Smith")
          (handleInputChange (change_yearGroup Year8)
             (handleInputChange (change_dateTime "2024-03-01T09:00")
                initialState)))).

Definition smithAfterSave : AppState := fst (handleSave browser smithFilled).

(** The browser of the examples with a full store: every write throws. *)
Definition fullStore : Platform :=
  {| now := now browser;
     localTZA := localTZA browser;
     legacyDateParse := legacyDateParse browser;
     localeTimeString := localeTimeString browser;
     downloadSupported := downloadSupported browser;
     storageAccepts := fun _ _ => false |}.

(** The browser of the examples without the [download] property on its
    anchors. *)
Definition oldBrowser : Platform :=
  {| now := now browser;
     localTZA := localTZA browser;
     legacyDateParse := legacyDateParse browser;
     localeTimeString := localeTimeString browser;
     downloadSupported := false;
     storageAccepts := storageAccepts browser |}.

(** The browser of the examples a minute later, and a minute after that. *)
Definition laterBrowser : Platform :=
  {| now := now browser + 60000;
     localTZA := localTZA browser;
     legacyDateParse := legacyDateParse browser;
     localeTimeString := localeTimeString browser;
     downloadSupported := downloadSupported browser;
     storageAccepts := storageAccepts browser |}.

Definition evenLaterBrowser : Platform :=
  {| now := now browser + 120000;
     localTZA := localTZA browser;
     legacyDateParse := legacyDateParse browser;
     localeTimeString := localeTimeString browser;
     downloadSupported := downloadSupported browser;
     storageAccepts := storageAccepts browser |}.

End Examples.

(** ** The specification's wording of the CSV cells, to compare the code with *)

Module Spec.
Import JsString Types.

(** A text with every double quote written twice. *)
Fixpoint doubled (s : string) : string :=
  match s with
  | EmptyString => EmptyString
  | String c s' =>
      if Ascii.eqb c dquote then String dquote (String dquote (doubled s'))
      else String c (doubled s')
  end.

(** CSV-quoted: wrapped in double quotes, every literal double quote doubled. *)
Definition csvQuoted (s : string) : string :=
  str1 dquote ++ doubled s ++ str1 dquote.

(** Reading a CSV-quoted cell back: the wrapping quotes dropped, every pair
    of quotes inside read as one. *)
Fixpoint undoubled (s : string) : string :=
  match s with
  | String c (String c' s' as rest) =>
      if Ascii.eqb c dquote && Ascii.eqb c' dquote then String dquote (undoubled s')
      else String c (undoubled rest)
  | _ => s
  end.

(** The literal character [Y] if the flag is true, [N] if false. *)
Definition yesNo (flag : bool) : string := if flag then "Y" else "N".

(** The four strategy cells in the fixed order of the keys. *)
Definition strategyCells (s : TeachingStrategies) : list string :=
  [yesNo (miniWhiteboards s); yesNo (thinkPairShare s); yesNo (dumtums s);
   yesNo (coldCalling s)].

(** A date written [YYYY-MM-DD]: four digits, two and two, with hyphens. *)
Definition isDateText (s : string) : bool :=
  match s with
  | String y1 (String y2 (String y3 (String y4 (String h1 (String m1
      (String m2 (String h2 (String d1 (String d2 EmptyString))))))))) =>
      isDigit y1 && isDigit y2 && isDigit y3 && isDigit y4
      && Ascii.eqb h1 "-" && isDigit m1 && isDigit m2
      && Ascii.eqb h2 "-" && isDigit d1 && isDigit d2
  | _ => false
  end.

(** The value a date-time control holds for a year, month, day, hour and
    minute, [YYYY-MM-DDTHH:mm], and its date part. *)
Definition dateText (y mo d : Z) : string :=
  JsDate.pad 4 y ++ "-" ++ JsDate.pad 2 mo ++ "-" ++ JsDate.pad 2 d.

Definition localDateTime (y mo d h mi : Z) : string :=
  dateText y mo d ++ "T" ++ JsDate.pad 2 h ++ ":" ++ JsDate.pad 2 mi.

(** A day of the calendar: a month of the year and a day that month has. *)
Definition validDate (y mo d : Z) : Prop :=
  1 <= mo <= 12
  /\ 1 <= d <= JsDate.DaysInMonth (JsDate.InLeapYear y) (mo - 1).

(** A date and time of a year of four digits. *)
Definition validLocalDateTime (y mo d h mi : Z) : Prop :=
  1000 <= y <= 9999 /\ validDate y mo d /\ 0 <= h <= 23 /\ 0 <= mi <= 59.

End Spec.

(** * Properties *)

#[local] Arguments Ascii.eqb : simpl never.
#[local] Arguments String.eqb : simpl never.

(** ** Strings *)

Module StringFacts.
Import JsString.

Lemma append_nil_l (s : string) : EmptyString ++ s = s.
Proof. reflexivity. Qed.

Lemma append_cons (c : ascii) (a b : string) :
  String c a ++ b = String c (a ++ b).
Proof. reflexivity. Qed.

Lemma append_nil_r (s : string) : s ++ EmptyString = s.
Proof.
  induction s as [|c s IH]; [reflexivity|].
  now rewrite append_cons, IH.
Qed.

Lemma append_assoc (a b c : string) : (a ++ b) ++ c = a ++ (b ++ c).
Proof.
  induction a as [|x a IH]; [reflexivity|].
  now rewrite !append_cons, IH.
Qed.

Lemma append_nonempty (a : string) (c : ascii) (b : string) :
  a ++ String c b <> EmptyString.
Proof. destruct a; discriminate. Qed.

Lemma truthy_iff (s : string) : truthy s = true <-> s <> EmptyString.
Proof. destruct s; simpl; split; congruence. Qed.

Lemma truthy_false_iff (s : string) : truthy s = false <-> s = EmptyString.
Proof. destruct s; simpl; split; congruence. Qed.

Lemma count_cons (c x : ascii) (s : string) :
  count c (String x s) = ((if Ascii.eqb x c then 1 else 0) + count c s)%nat.
Proof. reflexivity. Qed.

Lemma count_append (c : ascii) (a b : string) :
  count c (a ++ b) = (count c a + count c b)%nat.
Proof.
  induction a as [|x a IH]; [reflexivity|].
  rewrite append_cons. simpl. rewrite IH. lia.
Qed.

Lemma split_not_nil (sep : ascii) (s : string) : split sep s <> [].
Proof.
  destruct s as [|c s]; simpl; [discriminate|].
  destruct (Ascii.eqb c sep); [discriminate|].
  destruct (split sep s); discriminate.
Qed.

(** Splitting yields one piece more than there are separators. *)
Lemma length_split (sep : ascii) (s : string) :
  length (split sep s) = S (count sep s).
Proof.
  induction s as [|c s IH]; simpl; [reflexivity|].
  destruct (Ascii.eqb c sep); simpl.
  - now rewrite IH.
  - destruct (split sep s) eqn:E; simpl in *; lia.
Qed.

(** A text without the separator is its own single piece. *)
Lemma split_none (sep : ascii) (s : string) :
  count sep s = 0%nat -> split sep s = [s].
Proof.
  induction s as [|c s IH]; simpl; [reflexivity|].
  destruct (Ascii.eqb c sep); simpl; [discriminate|].
  intros H. now rewrite (IH H).
Qed.

(** Splitting distributes over a separator between two texts. *)
Lemma split_append (sep : ascii) (a b : string) :
  split sep (a ++ String sep b) = (split sep a ++ split sep b)%list.
Proof.
  induction a as [|c a IH].
  - rewrite append_nil_l. simpl. now rewrite Ascii.eqb_refl.
  - rewrite append_cons. simpl. destruct (Ascii.eqb c sep); simpl.
    + now rewrite IH.
    + rewrite IH. destruct (split sep a) eqn:E; [|reflexivity].
      now apply split_not_nil in E.
Qed.

Lemma join_cons2 (sep x y : string) (l : list string) :
  join sep (x :: y :: l) = x ++ sep ++ join sep (y :: l).
Proof. reflexivity. Qed.

(** Joining with a separator of one character and splitting on it again
    gives the pieces of every element, in order. *)
Lemma split_join (sep : ascii) (l : list string) :
  l <> [] ->
  split sep (join (str1 sep) l) = concat (map (split sep) l).
Proof.
  induction l as [|x l IH]; [congruence|]. intros _.
  destruct l as [|y l].
  - simpl. now rewrite List.app_nil_r.
  - rewrite join_cons2. unfold str1 at 1. rewrite append_cons, append_nil_l.
    rewrite split_append, IH by discriminate. reflexivity.
Qed.

Lemma split_join_clean (sep : ascii) (l : list string) :
  l <> [] -> Forall (fun x => count sep x = 0%nat) l ->
  split sep (join (str1 sep) l) = l.
Proof.
  intros Hne Hall. rewrite split_join by assumption. clear Hne.
  induction Hall as [|x l Hx _ IH]; [reflexivity|].
  simpl. now rewrite (split_none _ _ Hx), IH.
Qed.

(** Occurrences of a character in a joined text: those of the separator
    between every two elements, and those inside the elements. *)
Lemma count_join (c : ascii) (sep : string) (l : list string) :
  count c (join sep l)
  = (pred (length l) * count c sep + list_sum (map (count c) l))%nat.
Proof.
  induction l as [|x l IH]; [reflexivity|].
  destruct l as [|y l].
  - simpl. lia.
  - rewrite join_cons2, !count_append, IH. simpl. lia.
Qed.

Lemma join_app (sep : string) (l1 l2 : list string) :
  l1 <> [] -> l2 <> [] ->
  join sep (l1 ++ l2) = join sep l1 ++ sep ++ join sep l2.
Proof.
  intros H1 H2. induction l1 as [|x l1 IH]; [congruence|].
  destruct l1 as [|y l1].
  - destruct l2; [congruence | reflexivity].
  - change ((x :: y :: l1) ++ l2)%list with (x :: y :: (l1 ++ l2))%list.
    rewrite !join_cons2.
    change (y :: (l1 ++ l2))%list with ((y :: l1) ++ l2)%list.
    rewrite IH by discriminate. now rewrite !append_assoc.
Qed.

Lemma count_replace_all (c x : ascii) (by_ s : string) :
  Ascii.eqb x c = false -> count c by_ = 0%nat ->
  count c (replace_all x by_ s) = count c s.
Proof.
  intros Hx Hby. induction s as [|y s IH]; [reflexivity|].
  simpl. destruct (Ascii.eqb y x) eqn:E.
  - apply Ascii.eqb_eq in E. subst y. rewrite Hx, count_append, Hby, IH.
    reflexivity.
  - simpl. now rewrite IH.
Qed.

End StringFacts.

(** ** Digits and rendered dates *)

Module DateFacts.
Import JsString JsDate StringFacts.

Ltac digit_cases k :=
  let H := fresh "Hk" in
  assert (H : k = 0 \/ k = 1 \/ k = 2 \/ k = 3 \/ k = 4 \/ k = 5 \/ k = 6
              \/ k = 7 \/ k = 8 \/ k = 9) by lia;
  repeat (destruct H as [H | H]; [subst k | ]); [.. | subst k].

Lemma isDigit_digitChar (k : Z) :
  0 <= k <= 9 -> isDigit (digitChar k) = true.
Proof. intros Hr. digit_cases k; reflexivity. Qed.

Lemma digitVal_digitChar (k : Z) :
  0 <= k <= 9 -> digitVal (digitChar k) = Some k.
Proof. intros Hr. digit_cases k; reflexivity. Qed.

Lemma mod10_range (n : Z) : 0 <= n mod 10 <= 9.
Proof. pose proof (Z.mod_pos_bound n 10). lia. Qed.

Lemma digitChar_neq (c : ascii) (n : Z) :
  isDigit c = false -> Ascii.eqb (digitChar (n mod 10)) c = false.
Proof.
  intros Hc. apply Ascii.eqb_neq. intros <-.
  rewrite isDigit_digitChar in Hc by apply mod10_range. discriminate.
Qed.

(** A character that is no digit occurs in no padded number. *)
Lemma count_padTo (c : ascii) (w : nat) (n : Z) (acc : string) :
  isDigit c = false -> count c (padTo w n acc) = count c acc.
Proof.
  intros Hc. revert n acc. induction w as [|w IH]; intros n acc; simpl.
  - reflexivity.
  - rewrite IH. simpl. now rewrite digitChar_neq.
Qed.

Lemma count_pad (c : ascii) (w : nat) (n : Z) :
  isDigit c = false -> count c (pad w n) = 0%nat.
Proof. intros Hc. unfold pad. now rewrite count_padTo. Qed.

Lemma count_decimalFuel (c : ascii) (fuel : nat) (n : Z) (acc : string) :
  isDigit c = false -> count c (decimalFuel fuel n acc) = count c acc.
Proof.
  intros Hc. revert n acc. induction fuel as [|f IH]; intros n acc; simpl.
  - now rewrite digitChar_neq.
  - destruct (n <? 10).
    + simpl. now rewrite digitChar_neq.
    + rewrite IH. simpl. now rewrite digitChar_neq.
Qed.

Lemma count_decimal (c : ascii) (n : Z) :
  isDigit c = false -> count c (decimal n) = 0%nat.
Proof. intros Hc. unfold decimal. now rewrite count_decimalFuel. Qed.

(** A rendered date holds no line feed, whatever was parsed. *)
Lemma count_LF_enCA (P : Platform) (d : option Z) :
  count LF (toLocaleDateString_enCA P d) = 0%nat.
Proof.
  destruct d as [t|]; [|reflexivity].
  unfold toLocaleDateString_enCA.
  rewrite !count_append, count_decimal, !count_pad by reflexivity.
  reflexivity.
Qed.

End DateFacts.

(** ** CSV export *)

Module ExportFacts.
Import JsString Types Constants App StringFacts.

Lemma strategyValues_cells (obs : Observation) :
  strategyValues obs = Spec.strategyCells (strategies obs).
Proof. reflexivity. Qed.

Lemma csvFields_length (P : Platform) (obs : Observation) :
  length (csvFields P obs) = 9%nat.
Proof. reflexivity. Qed.

Lemma yesNo_clean (c : ascii) (flag : bool) :
  Ascii.eqb "Y" c = false -> Ascii.eqb "N" c = false ->
  count c (Spec.yesNo flag) = 0%nat.
Proof. intros HY HN. destruct flag; simpl; now rewrite ?HY, ?HN. Qed.

Lemma strategyCells_clean (c : ascii) (s : TeachingStrategies) :
  Ascii.eqb "Y" c = false -> Ascii.eqb "N" c = false ->
  Forall (fun x => count c x = 0%nat) (Spec.strategyCells s).
Proof.
  intros HY HN. unfold Spec.strategyCells.
  repeat constructor; now apply yesNo_clean.
Qed.

Lemma doubled_replace_all (s : string) :
  replace_all dquote (String dquote (str1 dquote)) s = Spec.doubled s.
Proof.
  induction s as [|c s IH]; [reflexivity|].
  simpl. destruct (Ascii.eqb c dquote); now rewrite IH.
Qed.

Lemma sanitizedNotes_csvQuoted (obs : Observation) :
  sanitizedNotes obs = Spec.csvQuoted (observationNotes obs).
Proof.
  unfold sanitizedNotes, Spec.csvQuoted. now rewrite doubled_replace_all.
Qed.

Lemma undoubled_cons2 (c c' : ascii) (s : string) :
  Spec.undoubled (String c (String c' s))
  = if Ascii.eqb c dquote && Ascii.eqb c' dquote
    then String dquote (Spec.undoubled s)
    else String c (Spec.undoubled (String c' s)).
Proof. reflexivity. Qed.

Lemma doubled_cons (c : ascii) (s : string) :
  Spec.doubled (String c s)
  = if Ascii.eqb c dquote then String dquote (String dquote (Spec.doubled s))
    else String c (Spec.doubled s).
Proof. reflexivity. Qed.

(** Un-doubling reads the notes back: the quoting loses nothing. *)
Lemma undoubled_doubled (s : string) : Spec.undoubled (Spec.doubled s) = s.
Proof.
  induction s as [|c s IH]; [reflexivity|].
  rewrite doubled_cons. destruct (Ascii.eqb c dquote) eqn:E.
  - apply Ascii.eqb_eq in E. subst c.
    rewrite undoubled_cons2, Ascii.eqb_refl. simpl andb. cbv iota.
    now rewrite IH.
  - destruct s as [|c' s]; [reflexivity|].
    remember (Spec.doubled (String c' s)) as d eqn:Hd.
    assert (Hform : exists x r, d = String x r).
    { subst d. rewrite doubled_cons. destruct (Ascii.eqb c' dquote); eauto. }
    destruct Hform as (x & r & Hxr). rewrite Hxr at 1.
    rewrite undoubled_cons2, E. simpl andb. cbv iota.
    now rewrite <- Hxr, IH.
Qed.

Lemma count_sanitizedNotes (c : ascii) (obs : Observation) :
  Ascii.eqb dquote c = false ->
  count c (sanitizedNotes obs) = count c (observationNotes obs).
Proof.
  intros Hc. unfold sanitizedNotes.
  rewrite count_cons, Hc, count_append, count_replace_all.
  - simpl. rewrite Hc. lia.
  - exact Hc.
  - simpl. now rewrite Hc.
Qed.

Lemma count_yearGroup_string (c : ascii) (y : option YearGroup) :
  isDigit c = false -> Ascii.eqb " " c = false ->
  Ascii.eqb "Y" c = false -> Ascii.eqb "e" c = false ->
  Ascii.eqb "a" c = false -> Ascii.eqb "r" c = false ->
  count c (yearGroup_string y) = 0%nat.
Proof.
  intros Hd Hs HY He Ha Hr.
  assert (H0 : Ascii.eqb "0" c = false).
  { apply Ascii.eqb_neq. intros <-. discriminate. }
  assert (H1 : Ascii.eqb "1" c = false).
  { apply Ascii.eqb_neq. intros <-. discriminate. }
  assert (H7 : Ascii.eqb "7" c = false).
  { apply Ascii.eqb_neq. intros <-. discriminate. }
  assert (H8 : Ascii.eqb "8" c = false).
  { apply Ascii.eqb_neq. intros <-. discriminate. }
  assert (H9 : Ascii.eqb "9" c = false).
  { apply Ascii.eqb_neq. intros <-. discriminate. }
  destruct y as [[]|]; simpl; now rewrite ?Hs, ?HY, ?He, ?Ha, ?Hr, ?H0, ?H1, ?H7, ?H8, ?H9.
Qed.

(** The line feeds of a row are those of its time, teacher name and notes. *)
Lemma count_LF_csvRow (P : Platform) (obs : Observation) :
  count LF (csvRow P obs)
  = (count LF (csvTime P obs) + count LF (teacherName obs)
     + count LF (observationNotes obs))%nat.
Proof.
  unfold csvRow. rewrite count_join. unfold csvFields.
  rewrite strategyValues_cells.
  cbn [app map list_sum length pred Spec.strategyCells].
  unfold csvDate. rewrite DateFacts.count_LF_enCA.
  rewrite count_yearGroup_string by reflexivity.
  rewrite count_sanitizedNotes by reflexivity.
  rewrite !yesNo_clean by reflexivity.
  simpl. lia.
Qed.

(** The commas of a row: the eight between its nine cells, and those inside
    the cells. *)
Lemma count_comma_csvRow (P : Platform) (obs : Observation) :
  count comma (csvRow P obs)
  = (8 + list_sum (map (count comma) (csvFields P obs)))%nat.
Proof. unfold csvRow. rewrite count_join. simpl. lia. Qed.

Lemma csvRow_split_cells (P : Platform) (obs : Observation) :
  split comma (csvRow P obs)
  = (split comma
       (join "," [csvDate P obs; csvTime P obs;
                  yearGroup_string (yearGroup obs); teacherName obs;
                  sanitizedNotes obs])
     ++ Spec.strategyCells (strategies obs))%list.
Proof.
  unfold csvRow, csvFields. rewrite strategyValues_cells.
  rewrite join_app by discriminate.
  change ("," ++ join "," (Spec.strategyCells (strategies obs)))
    with (String comma (join (str1 comma) (Spec.strategyCells (strategies obs)))).
  rewrite split_append. f_equal.
  apply split_join_clean; [discriminate|].
  now apply strategyCells_clean.
Qed.

End ExportFacts.

Module ExportClaims.
Import JsString Types Constants App StringFacts ExportFacts Examples.

Lemma header_fields : split comma (join "," headers) =
  ["Date"; "Time"; "Year Group"; "Teacher Name"; "Observation Notes";
   "Use of mini whiteboards"; "Think-Pair-Share"; "DUMTUMS"; "Cold calling"].
Proof. reflexivity. Qed.

(** An export with records and a browser that downloads hands over the CSV
    string, and leaves the state alone. *)
Lemma handleExport_download (P : Platform) (st : AppState) :
  observations st <> [] -> downloadSupported P = true ->
  handleExport P st
  = (st, [Download (exportFilename P) "text/csv;charset=utf-8;"
                   (csvString P (observations st))]).
Proof.
  intros Hne Hd. unfold handleExport. rewrite Hd.
  destruct (observations st); [congruence | reflexivity].
Qed.

(** C4, as amended.  For a non-empty collection whose notes, teacher names
    and rendered times hold no line feed, the CSV string splits on line feeds
    into the header line followed by the row of every observation, in the
    collection's order: exactly [1 + length C] lines. *)
Theorem csv_line_count (P : Platform) (C : list Observation) :
  C <> [] ->
  (forall o, In o C ->
     count LF (observationNotes o) = 0%nat
     /\ count LF (teacherName o) = 0%nat
     /\ count LF (csvTime P o) = 0%nat) ->
  split LF (csvString P C) = join "," headers :: map (csvRow P) C
  /\ length (split LF (csvString P C)) = (1 + length C)%nat.
Proof.
  intros _ Hclean.
  assert (Hsplit : split LF (csvString P C)
                   = join "," headers :: map (csvRow P) C).
  { unfold csvString, csvRows, nl. apply split_join_clean; [discriminate|].
    constructor; [reflexivity|].
    apply List.Forall_forall. intros row Hrow.
    apply List.in_map_iff in Hrow. destruct Hrow as (o & <- & Ho).
    rewrite count_LF_csvRow.
    destruct (Hclean o Ho) as (Hn & Ht & Hm). lia. }
  split; [exact Hsplit|].
  rewrite Hsplit. simpl. now rewrite List.length_map.
Qed.

Lemma csv_line_count_witness :
  split LF (csvString browser [smithSaved])
  = join "," headers :: map (csvRow browser) [smithSaved]
  /\ length (split LF (csvString browser [smithSaved]))
     = (1 + length [smithSaved])%nat.
Proof.
  apply (csv_line_count browser [smithSaved]).
  - discriminate.
  - intros o [<- | []]. repeat split; reflexivity.
Defined.

(** C4 as stated fails: one observation whose notes have two lines exports
    as three lines, not two. *)
Lemma csv_line_count_multiline_notes :
  [withNotes twoLines smithSaved] <> []
  /\ length (split LF (csvString browser [withNotes twoLines smithSaved])) = 3%nat
  /\ length (split LF (csvString browser [withNotes twoLines smithSaved]))
     <> (1 + length [withNotes twoLines smithSaved])%nat.
Proof.
  split; [discriminate|]. split; [reflexivity|].
  vm_compute. discriminate.
Qed.


(** C6.  Split on commas, every data row ends with the four strategy cells,
    [Y] for a set flag and [N] for a clear one, in the order miniWhiteboards,
    thinkPairShare, dumtums, coldCalling; the flags true, false, true, false
    give [Y,N,Y,N]. *)
Theorem csv_strategy_cells (P : Platform) (obs : Observation) :
  (exists front,
     split comma (csvRow P obs)
     = (front ++ [Spec.yesNo (miniWhiteboards (strategies obs));
                  Spec.yesNo (thinkPairShare (strategies obs));
                  Spec.yesNo (dumtums (strategies obs));
                  Spec.yesNo (coldCalling (strategies obs))])%list)
  /\ (exists front,
        split comma (csvRow P (withStrategies yesNoYesNo obs))
        = (front ++ ["Y"; "N"; "Y"; "N"])%list).
Proof.
  split; eexists; rewrite csvRow_split_cells; reflexivity.
Qed.

(** C7.  With no observations the export alerts the user and does nothing
    else: no download, no change of state. *)
Theorem export_empty_fails (P : Platform) (st : AppState) :
  observations st = [] ->
  handleExport P st = (st, [Alert "No observations to export."]).
Proof. intros H. unfold handleExport. now rewrite H. Qed.

Lemma export_empty_fails_witness :
  handleExport browser initialState
  = (initialState, [Alert "No observations to export."]).
Proof. apply (export_empty_fails browser initialState). reflexivity. Defined.

(** C10.  The year group and the teacher name are the third and fourth cell
    of a data row exactly as they are; the header has nine comma-separated
    fields, and a row whose teacher name holds a comma has more. *)
Theorem csv_names_verbatim (P : Platform) (obs : Observation) :
  nth_error (csvFields P obs) 2 = Some (yearGroup_string (yearGroup obs))
  /\ nth_error (csvFields P obs) 3 = Some (teacherName obs)
  /\ length (split comma (join "," headers)) = 9%nat
  /\ ((0 < count comma (teacherName obs))%nat ->
      (length (split comma (join "," headers))
       < length (split comma (csvRow P obs)))%nat).
Proof.
  split; [reflexivity|]. split; [reflexivity|]. split; [reflexivity|].
  intros Hcomma. rewrite header_fields, length_split, count_comma_csvRow.
  unfold csvFields, list_sum. cbn [app map fold_right length]. lia.
Qed.

Lemma csv_names_verbatim_witness :
  (length (split comma (join "," headers))
   < length (split comma
       (csvRow browser (withTeacherName "Smith, J." smithSaved))))%nat.
Proof.
  apply (csv_names_verbatim browser (withTeacherName "Smith, J." smithSaved)).
  vm_compute. lia.
Defined.

End ExportClaims.

(** ** Saving *)

Module SaveClaims.
Import JsString Types Constants App StringFacts Examples.

Lemma toISOString_nonempty (t : Z) : JsDate.toISOString t <> EmptyString.
Proof. unfold JsDate.toISOString. apply (append_nonempty _ "-"%char). Qed.

(** The guard of [handleSave] is the negation of [isFormValid]. *)
Lemma handleSave_guard (f : Observation) :
  negb (truthy (dateTime f)) || negb (truthy (teacherName f))
  || negb (truthy (yearGroup_string (yearGroup f)))
  = negb (isFormValid f).
Proof.
  unfold isFormValid.
  destruct (truthy (dateTime f)), (truthy (teacherName f)),
    (truthy (yearGroup_string (yearGroup f))); reflexivity.
Qed.

Lemma handleSave_valid (P : Platform) (st : AppState) :
  isFormValid (formState st) = true ->
  handleSave P st
  = (resetForm (setObservations
                  (newObservation P (formState st) :: observations st) st), []).
Proof.
  intros Hv. unfold handleSave. now rewrite handleSave_guard, Hv.
Qed.

Lemma yearGroup_string_empty (y : option YearGroup) :
  yearGroup_string y = EmptyString <-> y = None.
Proof. destruct y as [[]|]; simpl; split; congruence. Qed.

(** C1.  Saving a form with date-time, teacher name and year group filled in
    puts a record at the head of the collection whose id is a non-empty
    string and whose other fields are those of the form. *)
Theorem save_creates_observation (P : Platform) (st : AppState) :
  isFormValid (formState st) = true ->
  exists o,
    hd_error (observations (fst (handleSave P st))) = Some o
    /\ id o <> EmptyString
    /\ dateTime o = dateTime (formState st)
    /\ yearGroup o = yearGroup (formState st)
    /\ teacherName o = teacherName (formState st)
    /\ observationNotes o = observationNotes (formState st)
    /\ strategies o = strategies (formState st).
Proof.
  intros Hv. rewrite (handleSave_valid P st Hv).
  exists (newObservation P (formState st)). simpl.
  repeat split. apply toISOString_nonempty.
Qed.

Lemma save_creates_observation_witness :
  exists o,
    hd_error (observations
                (fst (handleSave browser (setFormState smithForm initialState))))
    = Some o
    /\ id o <> EmptyString
    /\ dateTime o = dateTime smithForm
    /\ yearGroup o = yearGroup smithForm
    /\ teacherName o = teacherName smithForm
    /\ observationNotes o = observationNotes smithForm
    /\ strategies o = strategies smithForm.
Proof.
  apply (save_creates_observation browser (setFormState smithForm initialState)).
  reflexivity.
Defined.

(** C3.  Saving a valid form on top of a collection [C] yields the new record
    followed by [C] as it was. *)
Theorem save_prepends (P : Platform) (C : list Observation) (f : Observation)
  (sel : option Observation) :
  isFormValid f = true ->
  observations
    (fst (handleSave P {| observations := C; formState := f;
                          selectedObservation := sel |}))
  = newObservation P f :: C.
Proof. intros Hv. now rewrite handleSave_valid. Qed.

Lemma save_prepends_witness :
  observations
    (fst (handleSave browser {| observations := [smithSaved];
                                formState := withTeacherName "A. Jones" smithForm;
                                selectedObservation := None |}))
  = newObservation browser (withTeacherName "A. Jones" smithForm) :: [smithSaved].
Proof.
  apply (save_prepends browser [smithSaved]
           (withTeacherName "A. Jones" smithForm) None).
  reflexivity.
Defined.

(** C8.  With the date-time, the teacher name or the year group empty, saving
    only alerts: the state, and so the collection and the form, stay as they
    were, and no record is made. *)
Theorem save_rejects_incomplete (P : Platform) (st : AppState) :
  dateTime (formState st) = EmptyString
  \/ teacherName (formState st) = EmptyString
  \/ yearGroup (formState st) = None ->
  handleSave P st
  = (st, [Alert "Please fill in Date/Time, Teacher Name, and Year Group."]).
Proof.
  intros H. unfold handleSave.
  assert (Hg : isFormValid (formState st) = false).
  { unfold isFormValid. destruct H as [H | [H | H]]; rewrite H; simpl.
    - reflexivity.
    - now rewrite andb_false_r.
    - now rewrite andb_false_r. }
  now rewrite handleSave_guard, Hg.
Qed.

Lemma save_rejects_incomplete_witness :
  handleSave browser
    {| observations := [smithSaved];
       formState := withYearGroup None smithForm;
       selectedObservation := None |}
  = ({| observations := [smithSaved];
        formState := withYearGroup None smithForm;
        selectedObservation := None |},
     [Alert "Please fill in Date/Time, Teacher Name, and Year Group."]).
Proof.
  apply (save_rejects_incomplete browser
           {| observations := [smithSaved];
              formState := withYearGroup None smithForm;
              selectedObservation := None |}).
  right. right. reflexivity.
Defined.

End SaveClaims.

(** ** [JSON.parse] reads back what [JSON.stringify] writes *)

Module JsonFacts.
Import JsString JSON StringFacts.

(** *** String literals *)

Lemma parseStringBody_u4 (h1 h2 h3 h4 : ascii) (n : N) (tail : string) :
  hex4 h1 h2 h3 h4 = Some n -> (n <? 55296)%N = true ->
  parseStringBody
    (String backslash (String "u" (String h1 (String h2 (String h3
       (String h4 tail))))))
  = prepend (utf8 n) (parseStringBody tail).
Proof.
  intros Hh Hn.
  assert (Hsp : forall b u l1 l2 l3 l4,
             surrogatePair n b u l1 l2 l3 l4 = None).
  { intros. unfold surrogatePair.
    destruct (55296 <=? n)%N eqn:E; [|reflexivity].
    apply N.leb_le in E. apply N.ltb_lt in Hn. lia. }
  transitivity
    (match hex4 h1 h2 h3 h4 with
     | None => None
     | Some n =>
         match tail with
         | String b (String u (String l1 (String l2 (String l3 (String l4 s4))))) =>
             match surrogatePair n b u l1 l2 l3 l4 with
             | Some cp => prepend (utf8 cp) (parseStringBody s4)
             | None => prepend (utf8 n) (parseStringBody tail)
             end
         | _ => prepend (utf8 n) (parseStringBody tail)
         end
     end); [reflexivity|].
  rewrite Hh.
  destruct tail as [|b [|u [|l1 [|l2 [|l3 [|l4 s4]]]]]]; try reflexivity.
  now rewrite Hsp.
Qed.

(** Reading the escape of one character gives the character. *)
Lemma parseStringBody_escapeChar (c : ascii) (tail : string) :
  parseStringBody (escapeChar c ++ tail)
  = prepend (str1 c) (parseStringBody tail).
Proof.
  destruct c as [b0 b1 b2 b3 b4 b5 b6 b7].
  destruct b0, b1, b2, b3, b4, b5, b6, b7;
    first
      [ reflexivity
      | match goal with
        | |- parseStringBody (escapeChar ?c ++ ?t) = _ =>
            apply (parseStringBody_u4 _ _ _ _ (N_of_ascii c) t); reflexivity
        end ].
Qed.

Lemma escape_cons (c : ascii) (s : string) :
  escape (String c s) = escapeChar c ++ escape s.
Proof. reflexivity. Qed.

(** Reading an escaped text up to its closing quote gives the text. *)
Lemma parseStringBody_escape (s tail : string) :
  parseStringBody (escape s ++ String dquote tail) = Some (s, tail).
Proof.
  induction s as [|c s IH]; [reflexivity|].
  rewrite escape_cons, append_assoc, parseStringBody_escapeChar, IH.
  reflexivity.
Qed.

Lemma quote_append (s tail : string) :
  quote s ++ tail = String dquote (escape s ++ String dquote tail).
Proof.
  unfold quote. rewrite append_cons, append_assoc. reflexivity.
Qed.

(** *** The equations of the descent *)

Lemma parseValue_S (fuel : nat) (s : string) :
  parseValue (S fuel) s
  = match skipWs s with
    | EmptyString => None
    | String c r =>
        if Ascii.eqb c "{" then
          match expect "}" (skipWs r) with
          | Some r' => Some (JObject [], r')
          | None => '(m, r') ← parseMembers fuel r; Some (JObject m, r')
          end
        else if Ascii.eqb c "[" then
          match expect "]" (skipWs r) with
          | Some r' => Some (JArray [], r')
          | None => '(l, r') ← parseElements fuel r; Some (JArray l, r')
          end
        else if Ascii.eqb c dquote then
          '(str, r') ← parseStringBody r; Some (JString str, r')
        else if Ascii.eqb c "t" then
          r' ← literal "rue" r; Some (JBool true, r')
        else if Ascii.eqb c "f" then
          r' ← literal "alse" r; Some (JBool false, r')
        else if Ascii.eqb c "n" then
          r' ← literal "ull" r; Some (JNull, r')
        else
          '(lexeme, r') ← lexNumber (String c r); Some (JNumber lexeme, r')
    end.
Proof. reflexivity. Qed.

Lemma parseElements_S (fuel : nat) (s : string) :
  parseElements (S fuel) s
  = ('(v, r) ← parseValue fuel s;
     match skipWs r with
     | EmptyString => None
     | String c r' =>
         if Ascii.eqb c "," then
           '(vs, r'') ← parseElements fuel r'; Some (v :: vs, r'')
         else if Ascii.eqb c "]" then Some ([v], r')
         else None
     end).
Proof. reflexivity. Qed.

Lemma parseMembers_S (fuel : nat) (s : string) :
  parseMembers (S fuel) s
  = (r0 ← expect dquote (skipWs s);
     '(k, r1) ← parseStringBody r0;
     r2 ← expect ":" (skipWs r1);
     '(v, r) ← parseValue fuel r2;
     match skipWs r with
     | EmptyString => None
     | String c r' =>
         if Ascii.eqb c "," then
           '(ms, r'') ← parseMembers fuel r'; Some ((k, v) :: ms, r'')
         else if Ascii.eqb c "}" then Some ([(k, v)], r')
         else None
     end).
Proof. reflexivity. Qed.

(** *** The first character of a written value *)

Lemma opens_append (s tail : string) : opens s -> opens (s ++ tail).
Proof.
  intros (c & r & -> & H). exists c, (r ++ tail). now rewrite append_cons.
Qed.

Lemma opens_skipWs (s : string) : opens s -> skipWs s = s.
Proof. intros (c & r & -> & Hws & _). simpl. now rewrite Hws. Qed.

Lemma opens_not_bracket (s : string) : opens s -> expect "]" s = None.
Proof. intros (c & r & -> & _ & H & _). simpl. now rewrite H. Qed.

Lemma opens_not_brace (s : string) : opens s -> expect "}" s = None.
Proof. intros (c & r & -> & _ & _ & H). simpl. now rewrite H. Qed.

Lemma opens_quote (k : string) : opens (quote k).
Proof. unfold quote. eexists _, _. repeat split; reflexivity. Qed.

Lemma opens_stringify (v : value) : numFree v = true -> opens (stringify v).
Proof.
  destruct v as [| [|] | lexeme | s | items | members]; simpl; intros H;
    try discriminate;
    eexists _, _; repeat split; reflexivity.
Qed.

(** *** Items and members *)

Lemma parseElements_items (l : list value) :
  l <> [] ->
  (forall c, In c l -> forall fuel rest,
     (weight c <= fuel)%nat ->
     parseValue fuel (stringify c ++ rest) = Some (c, rest)) ->
  forall fuel rest,
    (list_sum (map (fun c => S (weight c)) l) <= fuel)%nat ->
    parseElements fuel (join "," (map stringify l) ++ String "]" rest)
    = Some (l, rest).
Proof.
  induction l as [|c l IH]; [congruence|]. intros _ Hall fuel rest Hfuel.
  destruct fuel as [|fuel]; [simpl in Hfuel; lia|].
  rewrite parseElements_S.
  destruct l as [|c' l].
  - simpl in Hfuel. simpl map. simpl join.
    rewrite (Hall c (or_introl eq_refl)) by lia. reflexivity.
  - change (map stringify (c :: c' :: l))
      with (stringify c :: stringify c' :: map stringify l).
    rewrite join_cons2, !append_assoc.
    simpl in Hfuel.
    rewrite (Hall c (or_introl eq_refl)) by lia.
    change (('(vs, r'') ← parseElements fuel
                           (join "," (map stringify (c' :: l))
                            ++ String "]" rest);
             Some (c :: vs, r''))
            = Some (c :: c' :: l, rest)).
    rewrite IH.
    + reflexivity.
    + discriminate.
    + intros x Hx. apply Hall. now right.
    + simpl. lia.
Qed.

Lemma parseMembers_items (m : list (string * value)) :
  m <> [] ->
  (forall kv, In kv m -> forall fuel rest,
     (weight (snd kv) <= fuel)%nat ->
     parseValue fuel (stringify (snd kv) ++ rest) = Some (snd kv, rest)) ->
  forall fuel rest,
    (list_sum (map (fun kv => S (weight (snd kv))) m) <= fuel)%nat ->
    parseMembers fuel (join "," (map memberText m) ++ String "}" rest)
    = Some (m, rest).
Proof.
  induction m as [|[k v] m IH]; [congruence|]. intros _ Hall fuel rest Hfuel.
  destruct fuel as [|fuel]; [simpl in Hfuel; lia|].
  rewrite parseMembers_S.
  destruct m as [|kv' m].
  - simpl in Hfuel. simpl map. simpl join.
    unfold memberText. simpl fst. simpl snd.
    rewrite append_assoc, quote_append.
    change (('(k0, r1) ← parseStringBody
                           (escape k ++ String dquote
                              (":" ++ stringify v ++ String "}" rest));
             r2 ← expect ":" (skipWs r1);
             '(v0, r) ← parseValue fuel r2;
             match skipWs r with
             | EmptyString => None
             | String c r' =>
                 if Ascii.eqb c ","
                 then '(ms, r'') ← parseMembers fuel r'; Some ((k0, v0) :: ms, r'')
                 else if Ascii.eqb c "}" then Some ([(k0, v0)], r') else None
             end) = Some ([(k, v)], rest)).
    rewrite parseStringBody_escape.
    change (('(v0, r) ← parseValue fuel (stringify v ++ String "}" rest);
             match skipWs r with
             | EmptyString => None
             | String c r' =>
                 if Ascii.eqb c ","
                 then '(ms, r'') ← parseMembers fuel r'; Some ((k, v0) :: ms, r'')
                 else if Ascii.eqb c "}" then Some ([(k, v0)], r') else None
             end) = Some ([(k, v)], rest)).
    rewrite (Hall (k, v) (or_introl eq_refl)) by (simpl; lia). reflexivity.
  - change (map memberText ((k, v) :: kv' :: m))
      with (memberText (k, v) :: memberText kv' :: map memberText m).
    rewrite join_cons2. unfold memberText at 1. simpl fst. simpl snd.
    rewrite !append_assoc, quote_append.
    simpl in Hfuel.
    change (('(k0, r1) ← parseStringBody
                           (escape k ++ String dquote
                              (":" ++ stringify v ++ ","
                               ++ join "," (map memberText (kv' :: m))
                               ++ String "}" rest));
             r2 ← expect ":" (skipWs r1);
             '(v0, r) ← parseValue fuel r2;
             match skipWs r with
             | EmptyString => None
             | String c r' =>
                 if Ascii.eqb c ","
                 then '(ms, r'') ← parseMembers fuel r'; Some ((k0, v0) :: ms, r'')
                 else if Ascii.eqb c "}" then Some ([(k0, v0)], r') else None
             end) = Some ((k, v) :: kv' :: m, rest)).
    rewrite parseStringBody_escape.
    change (('(v0, r) ← parseValue fuel
                          (stringify v ++ ","
                           ++ join "," (map memberText (kv' :: m))
                           ++ String "}" rest);
             match skipWs r with
             | EmptyString => None
             | String c r' =>
                 if Ascii.eqb c ","
                 then '(ms, r'') ← parseMembers fuel r'; Some ((k, v0) :: ms, r'')
                 else if Ascii.eqb c "}" then Some ([(k, v0)], r') else None
             end) = Some ((k, v) :: kv' :: m, rest)).
    rewrite (Hall (k, v) (or_introl eq_refl)) by (simpl; lia).
    change (('(ms, r'') ← parseMembers fuel
                           (join "," (map memberText (kv' :: m))
                            ++ String "}" rest);
             Some ((k, v) :: ms, r''))
            = Some ((k, v) :: kv' :: m, rest)).
    rewrite IH.
    + reflexivity.
    + discriminate.
    + intros x Hx. apply Hall. now right.
    + simpl. lia.
Qed.

(** *** Values *)

Lemma stringify_array (items : list value) :
  stringify (JArray items) = "[" ++ join "," (map stringify items) ++ "]".
Proof. reflexivity. Qed.

Lemma stringify_object (members : list (string * value)) :
  stringify (JObject members) = "{" ++ join "," (map memberText members) ++ "}".
Proof. reflexivity. Qed.

Lemma stringify_array_append (items : list value) (rest : string) :
  stringify (JArray items) ++ rest
  = String "[" (join "," (map stringify items) ++ String "]" rest).
Proof.
  rewrite stringify_array, append_cons, append_nil_l, append_cons, append_assoc.
  reflexivity.
Qed.

Lemma stringify_object_append (members : list (string * value)) (rest : string) :
  stringify (JObject members) ++ rest
  = String "{" (join "," (map memberText members) ++ String "}" rest).
Proof.
  rewrite stringify_object, append_cons, append_nil_l, append_cons, append_assoc.
  reflexivity.
Qed.

Lemma weight_item (c : value) (l : list value) :
  In c l -> (S (weight c) <= list_sum (map (fun c => S (weight c)) l))%nat.
Proof.
  induction l as [|x l IH]; [intros []|].
  intros [-> | H]; simpl; [lia | specialize (IH H); lia].
Qed.

Lemma weight_member (kv : string * value) (m : list (string * value)) :
  In kv m ->
  (S (weight (snd kv)) <= list_sum (map (fun kv => S (weight (snd kv))) m))%nat.
Proof.
  induction m as [|x m IH]; [intros []|].
  intros [-> | H]; simpl; [lia | specialize (IH H); lia].
Qed.

Lemma numFree_item (c : value) (l : list value) :
  forallb numFree l = true -> In c l -> numFree c = true.
Proof. intros H Hc. exact (proj1 (List.forallb_forall _ _) H c Hc). Qed.

Lemma numFree_member (kv : string * value) (m : list (string * value)) :
  forallb (fun kv => numFree (snd kv)) m = true -> In kv m ->
  numFree (snd kv) = true.
Proof. intros H Hc. exact (proj1 (List.forallb_forall _ _) H kv Hc). Qed.

(** Reading a written value gives the value and leaves what follows it, with
    any fuel from the weight of the value on. *)
Lemma parseValue_stringify_bounded (n : nat) :
  forall v, (weight v <= n)%nat -> numFree v = true ->
  forall fuel rest, (weight v <= fuel)%nat ->
  parseValue fuel (stringify v ++ rest) = Some (v, rest).
Proof.
  induction n as [|n IH]; intros v Hn Hfree fuel rest Hfuel.
  { destruct v; simpl in Hn; lia. }
  destruct fuel as [|fuel]; [destruct v; simpl in Hfuel; lia|].
  destruct v as [| [|] | lexeme | s | items | members].
  - reflexivity.
  - reflexivity.
  - reflexivity.
  - discriminate.
  - simpl stringify. rewrite quote_append, parseValue_S.
    change (('(str, r') ← parseStringBody (escape s ++ String dquote rest);
             Some (JString str, r')) = Some (JString s, rest)).
    now rewrite parseStringBody_escape.
  - rewrite stringify_array_append, parseValue_S. simpl in Hn, Hfuel, Hfree.
    destruct items as [|c items]; [reflexivity|].
    change (match expect "]" (skipWs (join "," (map stringify (c :: items))
                                       ++ String "]" rest)) with
            | Some r' => Some (JArray [], r')
            | None =>
                '(l, r') ← parseElements fuel
                             (join "," (map stringify (c :: items))
                              ++ String "]" rest);
                Some (JArray l, r')
            end = Some (JArray (c :: items), rest)).
    assert (Hopen : opens (join "," (map stringify (c :: items))
                           ++ String "]" rest)).
    { apply opens_append. apply andb_prop in Hfree as [Hc _].
      destruct items as [|c' items].
      - now apply opens_stringify.
      - change (map stringify (c :: c' :: items))
          with (stringify c :: stringify c' :: map stringify items).
        rewrite join_cons2. now apply opens_append, opens_stringify. }
    rewrite (opens_skipWs _ Hopen), (opens_not_bracket _ Hopen).
    rewrite parseElements_items; [reflexivity | discriminate | | lia].
    intros x Hx fuel' rest' Hx'. apply IH; [| | exact Hx'].
    + pose proof (weight_item x _ Hx). lia.
    + exact (numFree_item x _ Hfree Hx).
  - rewrite stringify_object_append, parseValue_S. simpl in Hn, Hfuel, Hfree.
    destruct members as [|kv members]; [reflexivity|].
    change (match expect "}" (skipWs (join "," (map memberText (kv :: members))
                                       ++ String "}" rest)) with
            | Some r' => Some (JObject [], r')
            | None =>
                '(m, r') ← parseMembers fuel
                             (join "," (map memberText (kv :: members))
                              ++ String "}" rest);
                Some (JObject m, r')
            end = Some (JObject (kv :: members), rest)).
    assert (Hopen : opens (join "," (map memberText (kv :: members))
                           ++ String "}" rest)).
    { apply opens_append.
      destruct members as [|kv' members].
      - apply opens_append, opens_quote.
      - change (map memberText (kv :: kv' :: members))
          with (memberText kv :: memberText kv' :: map memberText members).
        rewrite join_cons2. apply opens_append, opens_append, opens_quote. }
    rewrite (opens_skipWs _ Hopen), (opens_not_brace _ Hopen).
    rewrite parseMembers_items; [reflexivity | discriminate | | lia].
    intros x Hx fuel' rest' Hx'. apply IH; [| | exact Hx'].
    + pose proof (weight_member x _ Hx). lia.
    + exact (numFree_member x _ Hfree Hx).
Qed.

Lemma parseValue_stringify (v : value) (fuel : nat) (rest : string) :
  numFree v = true -> (weight v <= fuel)%nat ->
  parseValue fuel (stringify v ++ rest) = Some (v, rest).
Proof.
  intros Hfree Hfuel.
  now apply (parseValue_stringify_bounded (weight v)).
Qed.

(** *** The length of a text is fuel enough *)

Lemma length_append (a b : string) :
  String.length (a ++ b) = (String.length a + String.length b)%nat.
Proof.
  induction a as [|c a IH]; [reflexivity|].
  rewrite append_cons. simpl. now rewrite IH.
Qed.

Lemma length_join (sep : string) (l : list string) :
  String.length (join sep l)
  = (pred (length l) * String.length sep
     + list_sum (map String.length l))%nat.
Proof.
  induction l as [|x l IH]; [reflexivity|].
  destruct l as [|y l].
  - simpl. lia.
  - rewrite join_cons2, !length_append, IH. simpl. lia.
Qed.

Lemma list_sum_le {A : Type} (f g : A -> nat) (l : list A) :
  (forall x, In x l -> (f x <= g x)%nat) ->
  (list_sum (map f l) <= list_sum (map g l))%nat.
Proof.
  induction l as [|x l IH]; intros H; simpl; [lia|].
  pose proof (H x (or_introl eq_refl)).
  assert (list_sum (map f l) <= list_sum (map g l))%nat.
  { apply IH. intros y Hy. apply H. now right. }
  lia.
Qed.

Lemma weight_le_length_bounded (n : nat) :
  forall v, (weight v <= n)%nat -> numFree v = true ->
  (weight v <= String.length (stringify v))%nat.
Proof.
  induction n as [|n IH]; intros v Hn Hfree.
  { destruct v; simpl in Hn; lia. }
  destruct v as [| [|] | lexeme | s | items | members];
    try (simpl; lia); try discriminate.
  - rewrite stringify_array, !length_append, length_join, List.map_map.
    simpl in Hn, Hfree. simpl weight.
    assert (list_sum (map weight items)
            <= list_sum (map (fun c => String.length (stringify c)) items))%nat.
    { apply list_sum_le. intros x Hx. apply IH.
      - pose proof (weight_item x _ Hx). lia.
      - exact (numFree_item x _ Hfree Hx). }
    assert (list_sum (map (fun c => S (weight c)) items)
            = (length items + list_sum (map weight items)))%nat.
    { clear. induction items; simpl; lia. }
    rewrite List.length_map. cbn [String.length].
    destruct items; simpl in *; lia.
  - rewrite stringify_object, !length_append, length_join, List.map_map.
    simpl in Hn, Hfree. simpl weight.
    assert (list_sum (map (fun kv => S (weight (snd kv))) members)
            <= list_sum (map (fun kv => String.length (memberText kv)) members))%nat.
    { apply list_sum_le. intros x Hx. unfold memberText.
      rewrite !length_append. simpl String.length.
      assert (weight (snd x) <= String.length (stringify (snd x)))%nat.
      { apply IH.
        - pose proof (weight_member x _ Hx). lia.
        - exact (numFree_member x _ Hfree Hx). }
      lia. }
    cbn [String.length]. lia.
Qed.

Lemma weight_le_length (v : value) :
  numFree v = true -> (weight v <= String.length (stringify v))%nat.
Proof. now apply (weight_le_length_bounded (weight v)). Qed.

(** [JSON.parse(JSON.stringify(v))] is [v], for every value without
    numbers. *)
Lemma parse_stringify (v : value) :
  numFree v = true -> parse (stringify v) = Some v.
Proof.
  intros Hfree. unfold parse.
  rewrite <- (append_nil_r (stringify v)) at 2.
  rewrite parseValue_stringify; [reflexivity | assumption |].
  pose proof (weight_le_length v Hfree). lia.
Qed.

End JsonFacts.

(** ** Persistence *)

Module PersistClaims.
Import JsString Types App Persistence StringFacts JsonFacts Examples.

Lemma numFree_observations (C : list Observation) :
  JSON.numFree (observations_value C) = true.
Proof.
  unfold observations_value. simpl.
  induction C as [|o C IH]; [reflexivity|].
  simpl. exact IH.
Qed.

Lemma asYearGroup_string (y : option YearGroup) :
  asYearGroup (yearGroup_string y) = Some y.
Proof. destruct y as [[]|]; reflexivity. Qed.

(** An observation written as a value reads back as itself. *)
Lemma asObservation_value (o : Observation) :
  asObservation (Observation_value o) = Some o.
Proof.
  destruct o as [i dt yg tn notes [a b c d]].
  change (asObservation
            (Observation_value
               {| id := i; dateTime := dt; yearGroup := yg; teacherName := tn;
                  observationNotes := notes;
                  strategies := {| miniWhiteboards := a; thinkPairShare := b;
                                   dumtums := c; coldCalling := d |} |}))
    with (yg' ← asYearGroup (yearGroup_string yg);
          Some {| id := i; dateTime := dt; yearGroup := yg'; teacherName := tn;
                  observationNotes := notes;
                  strategies := {| miniWhiteboards := a; thinkPairShare := b;
                                   dumtums := c; coldCalling := d |} |}).
  now rewrite asYearGroup_string.
Qed.

Lemma asObservations_value (C : list Observation) :
  asObservations (observations_value C) = Some C.
Proof.
  unfold observations_value, asObservations.
  induction C as [|o C IH]; [reflexivity|].
  change (asObservationList (map Observation_value (o :: C)))
    with (o' ← asObservation (Observation_value o);
          os ← asObservationList (map Observation_value C); Some (o' :: os)).
  now rewrite asObservation_value, IH.
Qed.

(** The serialized collection parses back to the collection. *)
Lemma parse_stringify_observations (C : list Observation) :
  JSON.parse (JSON.stringify (observations_value C)) ≫= asObservations = Some C.
Proof.
  rewrite parse_stringify by apply numFree_observations.
  apply asObservations_value.
Qed.

Lemma truthy_stringify_observations (C : list Observation) :
  truthy (JSON.stringify (observations_value C)) = true.
Proof. reflexivity. Qed.



End PersistClaims.

(** ** The calendar: a date read from its fields is rendered with the same
    fields *)

Module CalendarFacts.
Import JsString JsDate StringFacts DateFacts Spec.

(** Later years start on later days. *)
Lemma DayFromYear_mono (a b : Z) : a <= b -> DayFromYear a <= DayFromYear b.
Proof. intros H. unfold DayFromYear. Z.div_mod_to_equations; lia. Qed.

(** The estimate of [YearFromDay] is at most one year off. *)
Lemma year_estimate (day : Z) :
  DayFromYear (1970 + 400 * day / 146097 - 1) <= day
  /\ day < DayFromYear (1970 + 400 * day / 146097 + 2).
Proof. unfold DayFromYear. Z.div_mod_to_equations; lia. Qed.

(** A day number lies in the year [YearFromDay] gives it. *)
Lemma YearFromDay_window (day : Z) :
  DayFromYear (YearFromDay day) <= day < DayFromYear (YearFromDay day + 1).
Proof.
  unfold YearFromDay. cbv zeta.
  pose proof (year_estimate day) as [Hlo Hhi].
  set (y := 1970 + 400 * day / 146097) in *.
  destruct (Z.ltb_spec day (DayFromYear y)) as [H1 | H1].
  - replace (y - 1 + 1) with y by lia. lia.
  - destruct (Z.leb_spec (DayFromYear (y + 1)) day) as [H2 | H2].
    + replace (y + 1 + 1) with (y + 2) by lia. lia.
    + lia.
Qed.

(** The year of a day number is the one year it lies in. *)
Lemma YearFromDay_unique (y day : Z) :
  DayFromYear y <= day < DayFromYear (y + 1) -> YearFromDay day = y.
Proof.
  intros Hy. pose proof (YearFromDay_window day) as Hw.
  set (y' := YearFromDay day) in *.
  destruct (Z.lt_trichotomy y' y) as [Hlt | [Heq | Hgt]]; [| exact Heq |].
  - pose proof (DayFromYear_mono (y' + 1) y ltac:(lia)). lia.
  - pose proof (DayFromYear_mono (y + 1) y' ltac:(lia)). lia.
Qed.

(** A year has 365 days, or 366 when it is a leap year. *)
Lemma DayFromYear_succ (y : Z) :
  DayFromYear (y + 1)
  = DayFromYear y + (if InLeapYear y then 366 else 365).
Proof.
  unfold InLeapYear, DayFromYear.
  destruct (Z.eqb_spec (y mod 4) 0), (Z.eqb_spec (y mod 100) 0),
    (Z.eqb_spec (y mod 400) 0); cbn [andb orb negb];
    Z.div_mod_to_equations; lia.
Qed.

Ltac month_cases mo :=
  let H := fresh "Hmo" in
  assert (H : mo = 1 \/ mo = 2 \/ mo = 3 \/ mo = 4 \/ mo = 5 \/ mo = 6
              \/ mo = 7 \/ mo = 8 \/ mo = 9 \/ mo = 10 \/ mo = 11 \/ mo = 12)
    by lia;
  repeat (destruct H as [H | H]; [subst mo | ]); [.. | subst mo].

(** A day of a month lies within the year. *)
Lemma dayInYear_range (leap : bool) (mo d : Z) :
  1 <= mo <= 12 -> 1 <= d <= DaysInMonth leap (mo - 1) ->
  0 <= monthStart leap (mo - 1) + d - 1 < (if leap then 366 else 365).
Proof.
  intros Hmo Hd. month_cases mo; destruct leap;
    unfold DaysInMonth, monthStart in *; simpl in *; lia.
Qed.

(** The month of a day of month [mo] is [mo]. *)
Lemma MonthFromDay_monthStart (leap : bool) (mo d : Z) :
  1 <= mo <= 12 -> 1 <= d <= DaysInMonth leap (mo - 1) ->
  MonthFromDay leap (monthStart leap (mo - 1) + d - 1) = mo - 1.
Proof.
  intros Hmo Hd. unfold MonthFromDay.
  month_cases mo; destruct leap;
    unfold DaysInMonth, monthStart in *; simpl in *;
    repeat match goal with
           | |- context [?a <? ?b] => destruct (Z.ltb_spec a b); try lia
           end.
Qed.

Lemma MakeDay_month (y mo d : Z) :
  1 <= mo <= 12 ->
  MakeDay y (mo - 1) d
  = DayFromYear y + monthStart (InLeapYear y) (mo - 1) + d - 1.
Proof.
  intros Hmo. unfold MakeDay. cbv zeta.
  replace ((mo - 1) / 12) with 0 by (Z.div_mod_to_equations; lia).
  replace ((mo - 1) mod 12) with (mo - 1) by (Z.div_mod_to_equations; lia).
  now replace (y + 0) with y by lia.
Qed.

(** The year, month and day of the day number of a calendar date are those
    of the date. *)
Lemma YearFromDay_MakeDay (y mo d : Z) :
  validDate y mo d -> YearFromDay (MakeDay y (mo - 1) d) = y.
Proof.
  intros (Hmo & Hd). apply YearFromDay_unique.
  rewrite MakeDay_month, DayFromYear_succ by assumption.
  pose proof (dayInYear_range (InLeapYear y) mo d Hmo Hd). lia.
Qed.

Lemma fields_of_MakeDay (t y mo d : Z) :
  validDate y mo d -> Day t = MakeDay y (mo - 1) d ->
  YearFromTime t = y /\ MonthFromTime t = mo - 1 /\ DateFromTime t = d.
Proof.
  intros Hv Hday.
  assert (Hy : YearFromTime t = y).
  { unfold YearFromTime. rewrite Hday. now apply YearFromDay_MakeDay. }
  destruct Hv as (Hmo & Hd).
  assert (Hdiy : DayWithinYear t = monthStart (InLeapYear y) (mo - 1) + d - 1).
  { unfold DayWithinYear. rewrite Hy, Hday, MakeDay_month by assumption. lia. }
  assert (Hm : MonthFromTime t = mo - 1).
  { unfold MonthFromTime. rewrite Hy, Hdiy.
    now apply MonthFromDay_monthStart. }
  split; [exact Hy|]. split; [exact Hm|].
  unfold DateFromTime. rewrite Hm, Hy, Hdiy. lia.
Qed.

End CalendarFacts.

(** ** Reading and rendering the value of a date-time control *)

Module ParseFacts.
Import JsString JsDate StringFacts DateFacts CalendarFacts Spec.

Lemma pad2_chars (n : Z) :
  pad 2 n = String (digitChar (n / 10 mod 10)) (String (digitChar (n mod 10)) EmptyString).
Proof. reflexivity. Qed.

Lemma pad4_chars (n : Z) :
  pad 4 n
  = String (digitChar (n / 10 / 10 / 10 mod 10))
      (String (digitChar (n / 10 / 10 mod 10))
         (String (digitChar (n / 10 mod 10))
            (String (digitChar (n mod 10)) EmptyString))).
Proof. reflexivity. Qed.

Lemma digits_S (n : nat) (c : ascii) (s : string) (acc : Z) :
  digits (S n) (String c s) acc = (v ← digitVal c; digits n s (10 * acc + v)).
Proof. reflexivity. Qed.

Lemma digits_digitChar (n : nat) (k : Z) (s : string) (acc : Z) :
  0 <= k <= 9 ->
  digits (S n) (String (digitChar k) s) acc = digits n s (10 * acc + k).
Proof. intros Hk. now rewrite digits_S, digitVal_digitChar. Qed.

Lemma digits_pad2 (n : Z) (rest : string) (acc : Z) :
  0 <= n <= 99 ->
  digits 2 (pad 2 n ++ rest) acc = Some (100 * acc + n, rest).
Proof.
  intros Hn. rewrite pad2_chars, !append_cons, append_nil_l.
  rewrite !digits_digitChar by apply mod10_range.
  cbn [digits]. f_equal. f_equal. Z.div_mod_to_equations. lia.
Qed.

Lemma digits_pad4 (n : Z) (rest : string) (acc : Z) :
  0 <= n <= 9999 ->
  digits 4 (pad 4 n ++ rest) acc = Some (10000 * acc + n, rest).
Proof.
  intros Hn. rewrite pad4_chars, !append_cons, append_nil_l.
  rewrite !digits_digitChar by apply mod10_range.
  cbn [digits]. f_equal. f_equal. Z.div_mod_to_equations. lia.
Qed.

Lemma parseYear_digit (k : Z) (s : string) :
  0 <= k <= 9 ->
  parseYear (String (digitChar k) s) = digits 4 (String (digitChar k) s) 0.
Proof. intros Hk. digit_cases k; reflexivity. Qed.

Lemma parseYear_pad4 (y : Z) (rest : string) :
  0 <= y <= 9999 -> parseYear (pad 4 y ++ rest) = Some (y, rest).
Proof.
  intros Hy. rewrite <- (digits_pad4 y rest 0 Hy) at 1.
  rewrite pad4_chars, !append_cons. apply parseYear_digit, mod10_range.
Qed.

Lemma expect_here (c : ascii) (s : string) :
  expect c (String c EmptyString ++ s) = Some s.
Proof. rewrite append_cons, append_nil_l. simpl. now rewrite Ascii.eqb_refl. Qed.

Lemma parseDatePart_dateText (y mo d : Z) (rest : string) :
  0 <= y <= 9999 -> 0 <= mo <= 99 -> 0 <= d <= 99 ->
  parseDatePart (dateText y mo d ++ rest) = Some (y, mo, d, rest).
Proof.
  intros Hy Hmo Hd. unfold parseDatePart, dateText.
  rewrite !append_assoc, parseYear_pad4 by assumption.
  cbn [mbind option_bind]. rewrite expect_here, digits_pad2 by assumption.
  cbn [mbind option_bind]. rewrite expect_here, digits_pad2 by assumption.
  reflexivity.
Qed.

Lemma parseTimePart_hm (h mi : Z) :
  0 <= h <= 99 -> 0 <= mi <= 99 ->
  parseTimePart (pad 2 h ++ ":" ++ pad 2 mi) = Some (h, mi, 0, 0, EmptyString).
Proof.
  intros Hh Hmi. unfold parseTimePart.
  rewrite digits_pad2 by assumption. cbn [mbind option_bind].
  rewrite expect_here. cbn [mbind option_bind].
  rewrite <- (append_nil_r (pad 2 mi)), digits_pad2 by assumption.
  reflexivity.
Qed.

(** The fields a date-time control's value is parsed into. *)
Lemma parseFormat_localDateTime (y mo d h mi : Z) :
  0 <= y <= 9999 -> 0 <= mo <= 99 -> 0 <= d <= 99 ->
  0 <= h <= 99 -> 0 <= mi <= 99 ->
  parseFormat (localDateTime y mo d h mi)
  = Some {| fYear := y; fMonth := mo; fDay := d; fHour := h; fMinute := mi;
            fSecond := 0; fMilli := 0; fZone := ZoneLocal |}.
Proof.
  intros Hy Hmo Hd Hh Hmi. unfold parseFormat, localDateTime.
  rewrite parseDatePart_dateText by assumption. cbn [mbind option_bind].
  rewrite append_cons, append_nil_l. cbv iota beta.
  rewrite parseTimePart_hm by assumption. reflexivity.
Qed.

Lemma monthStart_range (leap : bool) (mo : Z) :
  1 <= mo <= 12 -> 0 <= monthStart leap (mo - 1) <= 335.
Proof.
  intros Hmo.
  assert (H : mo = 1 \/ mo = 2 \/ mo = 3 \/ mo = 4 \/ mo = 5 \/ mo = 6
              \/ mo = 7 \/ mo = 8 \/ mo = 9 \/ mo = 10 \/ mo = 11 \/ mo = 12)
    by lia.
  repeat (destruct H as [H | H]; [subst mo; destruct leap; simpl; lia|]).
  subst mo; destruct leap; simpl; lia.
Qed.

Lemma DaysInMonth_le (leap : bool) (mo : Z) :
  1 <= mo <= 12 -> DaysInMonth leap (mo - 1) <= 31.
Proof.
  intros Hmo.
  assert (H : mo = 1 \/ mo = 2 \/ mo = 3 \/ mo = 4 \/ mo = 5 \/ mo = 6
              \/ mo = 7 \/ mo = 8 \/ mo = 9 \/ mo = 10 \/ mo = 11 \/ mo = 12)
    by lia.
  repeat (destruct H as [H | H]; [subst mo; destruct leap; unfold DaysInMonth; simpl; lia|]).
  subst mo; destruct leap; unfold DaysInMonth; simpl; lia.
Qed.

(** The day number of a date of the years 0 to 9999. *)
Lemma MakeDay_range (y mo d : Z) :
  0 <= y <= 9999 -> 1 <= mo <= 12 -> 1 <= d <= 31 ->
  -3000000 <= MakeDay y (mo - 1) d <= 3000000.
Proof.
  intros Hy Hmo Hd. unfold MakeDay. cbv zeta.
  replace ((mo - 1) / 12) with 0 by (Z.div_mod_to_equations; lia).
  replace ((mo - 1) mod 12) with (mo - 1) by (Z.div_mod_to_equations; lia).
  pose proof (monthStart_range (InLeapYear (y + 0)) mo Hmo).
  unfold DayFromYear. Z.div_mod_to_equations. lia.
Qed.

Lemma MakeTime_range (h mi : Z) :
  0 <= h <= 23 -> 0 <= mi <= 59 -> 0 <= MakeTime h mi 0 0 < msPerDay.
Proof. intros Hh Hmi. unfold MakeTime, msPerHour, msPerMinute, msPerSecond, msPerDay. lia. Qed.

Lemma Day_MakeDate (day time : Z) :
  0 <= time < msPerDay -> Day (MakeDate day time) = day.
Proof.
  intros Ht. unfold Day, MakeDate.
  rewrite Z.div_add_l by (unfold msPerDay; lia).
  rewrite Z.div_small by assumption. lia.
Qed.

Lemma LocalTime_UTC (P : Platform) (t : Z) : LocalTime P (UTC P t) = t.
Proof. unfold LocalTime, UTC. lia. Qed.

(** A year of four digits is written with its four digits. *)
Lemma decimal_pad4 (y : Z) : 1000 <= y <= 9999 -> decimal y = pad 4 y.
Proof.
  intros Hy. unfold decimal.
  assert (Hlog : 9 <= Z.log2 y).
  { change 9 with (Z.log2 1000). apply Z.log2_le_mono. lia. }
  destruct (Z.to_nat (Z.log2 y)) as [|[|[|f]]] eqn:E; try lia.
  cbn [decimalFuel].
  destruct (Z.ltb_spec y 10); [lia|].
  destruct (Z.ltb_spec (y / 10) 10); [Z.div_mod_to_equations; lia|].
  destruct (Z.ltb_spec (y / 10 / 10) 10); [Z.div_mod_to_equations; lia|].
  rewrite pad4_chars.
  destruct f; cbn [decimalFuel]; [reflexivity|].
  destruct (Z.ltb_spec (y / 10 / 10 / 10) 10);
    [reflexivity | Z.div_mod_to_equations; lia].
Qed.

(** The date a date-time control's value is read as. *)
Lemma new_Date_localDateTime (P : Platform) (y mo d h mi : Z) :
  validLocalDateTime y mo d h mi -> Z.abs (localTZA P) <= msPerDay ->
  new_Date P (localDateTime y mo d h mi)
  = Some (UTC P (MakeDate (MakeDay y (mo - 1) d) (MakeTime h mi 0 0))).
Proof.
  intros (Hy & (Hmo & Hd) & Hh & Hmi) Htz.
  pose proof (DaysInMonth_le (InLeapYear y) mo Hmo) as Hdim.
  unfold new_Date.
  rewrite parseFormat_localDateTime by lia.
  assert (Hr : fieldsInRange
                 {| fYear := y; fMonth := mo; fDay := d; fHour := h;
                    fMinute := mi; fSecond := 0; fMilli := 0;
                    fZone := ZoneLocal |} = true).
  { unfold fieldsInRange. cbn [fMonth fDay fHour fMinute fSecond fMilli].
    repeat (apply andb_true_intro; split); try (apply Z.leb_le; lia).
    apply orb_true_intro. left. apply Z.leb_le. lia. }
  rewrite Hr. unfold timeOfFields.
  cbn [fYear fMonth fDay fHour fMinute fSecond fMilli fZone].
  unfold TimeClip.
  pose proof (MakeDay_range y mo d ltac:(lia) Hmo ltac:(lia)) as Hday.
  pose proof (MakeTime_range h mi Hh Hmi) as Htime.
  destruct (Z.leb_spec
              (Z.abs (UTC P (MakeDate (MakeDay y (mo - 1) d) (MakeTime h mi 0 0))))
              8640000000000000) as [_ | Hbig]; [reflexivity|].
  exfalso. unfold UTC, MakeDate, msPerDay in *. lia.
Qed.

(** The date of a date-time control's value is rendered as the date part of
    that value, whatever the time zone. *)
Lemma enCA_localDateTime (P : Platform) (y mo d h mi : Z) :
  validLocalDateTime y mo d h mi -> Z.abs (localTZA P) <= msPerDay ->
  toLocaleDateString_enCA P (new_Date P (localDateTime y mo d h mi))
  = dateText y mo d.
Proof.
  intros Hv Htz. rewrite new_Date_localDateTime by assumption.
  destruct Hv as (Hy & Hdate & Hh & Hmi).
  unfold toLocaleDateString_enCA. cbv zeta. rewrite LocalTime_UTC.
  destruct (fields_of_MakeDay
              (MakeDate (MakeDay y (mo - 1) d) (MakeTime h mi 0 0)) y mo d Hdate)
    as (Hyear & Hmonth & Hday).
  { apply Day_MakeDate, MakeTime_range; assumption. }
  rewrite Hyear, Hmonth, Hday.
  replace (mo - 1 + 1) with mo by lia.
  assert (Hera : yearOfEra y = y).
  { unfold yearOfEra. destruct (Z.leb_spec y 0); lia. }
  rewrite Hera, decimal_pad4 by assumption. reflexivity.
Qed.

End ParseFacts.

(** ** Feedback composition *)

Module FeedbackClaims.
Import JsString JsDate Types Constants App StringFacts Examples Spec ParseFacts.

Lemma strategiesList_none (f : Observation) :
  (forall key, getStrategy (strategies f) key = false) ->
  strategiesList f = EmptyString.
Proof.
  intros Hnone. unfold strategiesList, STRATEGY_KEYS. cbn [List.filter].
  now rewrite !Hnone.
Qed.

Lemma body_none (f : Observation) :
  (forall key, getStrategy (strategies f) key = false) ->
  body f
  = ("Hi " ++ teacherName f ++ "," ++ nl ++ nl
     ++ "Here is some feedback from a recent learning walk." ++ nl ++ nl
     ++ "Observation Notes:" ++ nl ++ observationNotes f ++ nl ++ nl
     ++ "Teaching Strategies Observed:")
    ++ String LF ("None specified" ++ String LF (nl ++ "Best regards,")).
Proof.
  intros Hnone. unfold body. rewrite strategiesList_none by assumption.
  unfold or_else. cbn [truthy]. unfold nl, str1.
  repeat rewrite ?append_assoc, ?append_cons, ?append_nil_l. reflexivity.
Qed.

Lemma handleEmail_ready (P : Platform) (st : AppState) :
  teacherName (formState st) <> EmptyString ->
  dateTime (formState st) <> EmptyString ->
  handleEmail P st
  = (st, [Navigate ("ms-outlook://compose?subject="
                    ++ JsURI.encodeURIComponent (subject P (formState st))
                    ++ "&body="
                    ++ JsURI.encodeURIComponent (body (formState st)))]).
Proof.
  intros Ht Hd. unfold handleEmail.
  apply truthy_iff in Ht, Hd. now rewrite Ht, Hd.
Qed.

Lemma localDateTime_nonempty (y mo d h mi : Z) :
  localDateTime y mo d h mi <> EmptyString.
Proof. unfold localDateTime. apply (append_nonempty _ "T"%char). Qed.




End FeedbackClaims.

(** ** The end-to-end scenario of the specification *)

Module ScenarioFacts.
Import JsString Types Constants App Examples.

Example scenario_form : formState smithFilled = smithForm.
Proof. reflexivity. Qed.

(** Saving on an empty collection leaves one record, the form under a fresh
    id, and an empty form. *)
Example scenario_saved :
  observations smithAfterSave
  = [{| id := "2024-03-01T09:00:00.123Z"; dateTime := "2024-03-01T09:00";
        yearGroup := Some Year8; teacherName := "J. Smith";
        observationNotes := "Good pacing."; strategies := initialStrategies |}]
  /\ formState smithAfterSave = getInitialFormState.
Proof. split; vm_compute; reflexivity. Qed.

(** The export is two lines, and the row ends in four [N] cells. *)
Example scenario_export :
  exists row front,
    handleExport browser smithAfterSave
    = (smithAfterSave,
       [Download "learning_walks_2024-03-01.csv" "text/csv;charset=utf-8;"
                 (join "," headers ++ nl ++ row)])
    /\ count LF row = 0%nat
    /\ split comma row = (front ++ ["N"; "N"; "N"; "N"])%list.
Proof.
  eexists _, [_; _; _; _; _]. vm_compute. repeat split; reflexivity.
Qed.

(** Stored and loaded again on a fresh start, the collection is the same. *)
Example scenario_reload :
  loadEffect (fst (saveEffect browser ∅ smithAfterSave)) initialState
  = Some (setObservations (observations smithAfterSave) initialState, []).
Proof. vm_compute. reflexivity. Qed.

End ScenarioFacts.

(** ** The buttons, the events and the session *)

Module ViewFacts.
Import JsString Types Constants App View StringFacts SaveClaims Examples.

Lemma handleEmail_guard (P : Platform) (st : AppState) :
  handleEmail P st
  = if sendFeedbackDisabled st
    then (st, [Alert "Please provide a Teacher Name and Date before sending an email."])
    else (st, [Navigate ("ms-outlook://compose?subject="
                         ++ JsURI.encodeURIComponent (subject P (formState st))
                         ++ "&body="
                         ++ JsURI.encodeURIComponent (body (formState st)))]).
Proof. reflexivity. Qed.

Lemma handleExport_guard (P : Platform) (st : AppState) :
  handleExport P st
  = if exportDisabled st then (st, [Alert "No observations to export."])
    else if downloadSupported P then
      (st, [Download (exportFilename P) "text/csv;charset=utf-8;"
                     (csvString P (observations st))])
    else (st, []).
Proof.
  unfold handleExport, exportDisabled. destruct (observations st); reflexivity.
Qed.

Lemma handleSave_disabled (P : Platform) (st : AppState) :
  handleSave P st
  = if saveDisabled st
    then (st, [Alert "Please fill in Date/Time, Teacher Name, and Year Group."])
    else (resetForm (setObservations
                       (newObservation P (formState st) :: observations st) st),
          []).
Proof.
  unfold handleSave, saveDisabled. now rewrite handleSave_guard.
Qed.

(** X1.  Each of the three footer handlers alerts exactly when its button
    is rendered disabled: the guard written in the handler and the condition
    written in the JSX agree. *)
Theorem alerts_iff_disabled (P : Platform) (st : AppState) :
  existsb isAlert (snd (handleSave P st)) = saveDisabled st
  /\ existsb isAlert (snd (handleEmail P st)) = sendFeedbackDisabled st
  /\ existsb isAlert (snd (handleExport P st)) = exportDisabled st.
Proof.
  rewrite handleSave_disabled, handleEmail_guard, handleExport_guard.
  destruct (saveDisabled st), (sendFeedbackDisabled st), (exportDisabled st),
    (downloadSupported P); repeat split; reflexivity.
Qed.

(** No event alerts: past an enabled button the guard of the handler does
    not fire. *)
Lemma handleEvent_no_alert (P : Platform) (ev : Event) (st : AppState) :
  existsb isAlert (snd (handleEvent P ev st)) = false.
Proof.
  destruct ev as [e | name checked | | | | index |]; simpl; try reflexivity.
  - rewrite handleEmail_guard. destruct (sendFeedbackDisabled st); reflexivity.
  - rewrite handleExport_guard.
    destruct (exportDisabled st), (downloadSupported P); reflexivity.
  - rewrite handleSave_disabled. destruct (saveDisabled st); reflexivity.
  - destruct (nth_error (observations st) index); reflexivity.
Qed.

Lemma saveEffect_no_alert (P : Platform) (ls : gmap string string)
  (st : AppState) :
  existsb isAlert (snd (saveEffect P ls st)) = false.
Proof.
  unfold saveEffect. destruct (Persistence.setItem P ls storageKey _); reflexivity.
Qed.

Lemma dispatch_no_alert (P : Platform) (ev : Event) (w : World) :
  existsb isAlert (snd (dispatch P ev w)) = false.
Proof.
  unfold dispatch. pose proof (handleEvent_no_alert P ev (snd w)) as He.
  destruct (handleEvent P ev (snd w)) as [st' effects]. simpl in He.
  destruct (setsObservations ev (snd w)); [|exact He].
  pose proof (saveEffect_no_alert P (fst w) st') as Hs.
  destruct (saveEffect P (fst w) st') as [ls' effects']. simpl in *.
  now rewrite existsb_app, He, Hs.
Qed.

(** X2.  Through the rendered controls no [alert] is ever raised: whatever
    the events of a session, none of its effects is an alert. *)
Theorem run_never_alerts (events : list (Platform * Event)) (w : World) :
  existsb isAlert (snd (run events w)) = false.
Proof.
  revert w. induction events as [|[P ev] rest IH]; intros w; [reflexivity|].
  simpl. pose proof (dispatch_no_alert P ev w) as Hd.
  destruct (dispatch P ev w) as [w1 effects1]. simpl in Hd.
  specialize (IH w1). destruct (run rest w1) as [w2 effects2]. simpl in *.
  now rewrite existsb_app, Hd, IH.
Qed.

(** *** What a session keeps *)

Lemma dispatch_state (P : Platform) (ev : Event) (w : World) :
  snd (fst (dispatch P ev w)) = fst (handleEvent P ev (snd w)).
Proof.
  unfold dispatch. destruct (handleEvent P ev (snd w)) as [st' effects].
  destruct (setsObservations ev (snd w)); [|reflexivity].
  destruct (saveEffect P (fst w) st'); reflexivity.
Qed.

Lemma isSaved_newObservation (P : Platform) (f : Observation) :
  isFormValid f = true -> isSaved (newObservation P f) = true.
Proof.
  unfold isFormValid, isSaved. cbn [newObservation id dateTime teacherName yearGroup].
  destruct (truthy (dateTime f)), (truthy (teacherName f)),
    (truthy (yearGroup_string (yearGroup f))); try discriminate.
  intros _. rewrite !andb_true_r. apply truthy_iff, toISOString_nonempty.
Qed.

(** What an event does to the collection: nothing, or one new saved record
    in front. *)
Lemma handleEvent_observations (P : Platform) (ev : Event) (st : AppState) :
  observations (fst (handleEvent P ev st))
  = if setsObservations ev st
    then newObservation P (formState st) :: observations st
    else observations st.
Proof.
  destruct ev as [e | name checked | | | | index |]; simpl; try reflexivity.
  - rewrite handleEmail_guard. destruct (sendFeedbackDisabled st); reflexivity.
  - rewrite handleExport_guard.
    destruct (exportDisabled st), (downloadSupported P); reflexivity.
  - rewrite handleSave_disabled. unfold saveDisabled.
    destruct (isFormValid (formState st)); reflexivity.
  - destruct (nth_error (observations st) index); reflexivity.
Qed.

Lemma handleEvent_wellFormed (P : Platform) (ev : Event) (st : AppState) :
  wellFormed st -> wellFormed (fst (handleEvent P ev st)).
Proof.
  intros (Hid & Hall & Hsel).
  destruct ev as [e | name checked | | | | index |]; simpl.
  - destruct e; repeat split; assumption.
  - repeat split; assumption.
  - rewrite handleEmail_guard.
    destruct (sendFeedbackDisabled st); repeat split; assumption.
  - rewrite handleExport_guard.
    destruct (exportDisabled st), (downloadSupported P); repeat split; assumption.
  - rewrite handleSave_disabled. unfold saveDisabled.
    destruct (isFormValid (formState st)) eqn:Hv; simpl;
      [|repeat split; assumption].
    split; [reflexivity|]. split.
    + constructor; [now apply isSaved_newObservation | exact Hall].
    + intros o Ho. right. now apply Hsel.
  - destruct (nth_error (observations st) index) as [obs|] eqn:Hn; simpl;
      [|repeat split; assumption].
    split; [exact Hid|]. split; [exact Hall|].
    intros o [= <-]. eapply nth_error_In, Hn.
  - split; [exact Hid|]. split; [exact Hall|]. intros o Ho. discriminate.
Qed.

(** X3.  A session keeps the state well formed: the form never gets an id,
    every record of the collection has an id, a date-time, a teacher name
    and a year group, and the record shown in the modal is one of the
    collection. *)
Theorem run_keeps_wellFormed (events : list (Platform * Event)) (w : World) :
  wellFormed (snd w) -> wellFormed (snd (fst (run events w))).
Proof.
  revert w. induction events as [|[P ev] rest IH]; intros w Hw; [exact Hw|].
  simpl. pose proof (dispatch_state P ev w) as Hd.
  destruct (dispatch P ev w) as [w1 effects1]. simpl in Hd.
  assert (Hw1 : wellFormed (snd w1)).
  { rewrite Hd. now apply handleEvent_wellFormed. }
  specialize (IH w1 Hw1). destruct (run rest w1) as [w2 effects2]. exact IH.
Qed.

Lemma run_keeps_wellFormed_witness :
  wellFormed
    (snd (fst (run [(browser, InputChanged (change_teacherName "A. Jones"));
                    (browser, SaveClicked);
                    (browser, ViewDetailsClicked 0)]
                   (∅, smithFilled)))).
Proof.
  apply (run_keeps_wellFormed
           [(browser, InputChanged (change_teacherName "A. Jones"));
            (browser, SaveClicked);
            (browser, ViewDetailsClicked 0)]
           (∅, smithFilled)).
  split; [reflexivity|]. split; [constructor|]. intros o Ho. discriminate.
Defined.

(** X4.  A session only ever puts records in front of the collection: what
    was there stays, in its order, behind at most one new record per click
    on Save. *)
Theorem run_only_prepends (events : list (Platform * Event)) (w : World) :
  exists added,
    observations (snd (fst (run events w)))
    = (added ++ observations (snd w))%list
    /\ (length added <= saveClicks events)%nat.
Proof.
  revert w. induction events as [|[P ev] rest IH]; intros w.
  { exists []. split; [reflexivity | simpl; lia]. }
  simpl. pose proof (dispatch_state P ev w) as Hd.
  pose proof (handleEvent_observations P ev (snd w)) as Ho.
  destruct (dispatch P ev w) as [w1 effects1]. simpl in Hd.
  destruct (IH w1) as (added & Hadded & Hlen).
  destruct (run rest w1) as [w2 effects2]. simpl in *.
  rewrite Hadded, Hd, Ho. unfold saveClicks in *. simpl.
  destruct ev; simpl in *;
    try (exists added; split; [reflexivity | lia]).
  destruct (isFormValid (formState (snd w))).
  - exists (added ++ [newObservation P (formState (snd w))])%list.
    rewrite <- List.app_assoc. split; [reflexivity|].
    rewrite List.length_app. simpl. lia.
  - exists added. split; [reflexivity | lia].
Qed.

(** X5.  A successful save empties the form, so that Save is disabled and a
    second click (or a second call of the handler) adds nothing: the
    collection has grown by exactly one record. *)
Theorem save_then_save_again (P P' : Platform) (w : World) :
  isFormValid (formState (snd w)) = true ->
  formState (snd (fst (dispatch P SaveClicked w))) = getInitialFormState
  /\ length (observations (snd (fst (dispatch P SaveClicked w))))
     = S (length (observations (snd w)))
  /\ saveDisabled (snd (fst (dispatch P SaveClicked w))) = true
  /\ handleSave P' (snd (fst (dispatch P SaveClicked w)))
     = (snd (fst (dispatch P SaveClicked w)),
        [Alert "Please fill in Date/Time, Teacher Name, and Year Group."])
  /\ dispatch P' SaveClicked (fst (dispatch P SaveClicked w))
     = (fst (dispatch P SaveClicked w), []).
Proof.
  intros Hv.
  assert (Hst : snd (fst (dispatch P SaveClicked w))
                = resetForm (setObservations
                               (newObservation P (formState (snd w))
                                :: observations (snd w)) (snd w))).
  { rewrite dispatch_state. simpl. unfold saveDisabled. rewrite Hv. simpl.
    now rewrite handleSave_valid. }
  destruct (fst (dispatch P SaveClicked w)) as [ls1 st1]. simpl in Hst.
  subst st1. simpl. repeat split.
Qed.

Lemma save_then_save_again_witness :
  formState (snd (fst (dispatch browser SaveClicked (∅, smithFilled))))
  = getInitialFormState
  /\ length (observations (snd (fst (dispatch browser SaveClicked (∅, smithFilled)))))
     = S (length (observations (snd (∅ : gmap string string, smithFilled))))
  /\ saveDisabled (snd (fst (dispatch browser SaveClicked (∅, smithFilled)))) = true
  /\ handleSave browser (snd (fst (dispatch browser SaveClicked (∅, smithFilled))))
     = (snd (fst (dispatch browser SaveClicked (∅, smithFilled))),
        [Alert "Please fill in Date/Time, Teacher Name, and Year Group."])
  /\ dispatch browser SaveClicked (fst (dispatch browser SaveClicked (∅, smithFilled)))
     = (fst (dispatch browser SaveClicked (∅, smithFilled)), []).
Proof.
  apply (save_then_save_again browser browser (∅, smithFilled)). reflexivity.
Defined.

End ViewFacts.

(** ** Feedback: what the handler refuses, and the link it builds *)

Module FeedbackFacts.
Import JsString Types Constants App View StringFacts Examples ViewFacts.

(** X6.  Without a teacher name or without a date-time, feedback
    composition only alerts; and in no case do the feedback and the export
    handler change the state. *)
Theorem email_rejects_incomplete (P : Platform) (st : AppState) :
  (teacherName (formState st) = EmptyString
   \/ dateTime (formState st) = EmptyString ->
   handleEmail P st
   = (st, [Alert "Please provide a Teacher Name and Date before sending an email."]))
  /\ fst (handleEmail P st) = st
  /\ fst (handleExport P st) = st.
Proof.
  rewrite handleEmail_guard, handleExport_guard. split; [|split].
  - intros H. unfold sendFeedbackDisabled.
    destruct H as [H | H]; rewrite H; simpl; [reflexivity|].
    now rewrite orb_true_r.
  - destruct (sendFeedbackDisabled st); reflexivity.
  - destruct (exportDisabled st), (downloadSupported P); reflexivity.
Qed.

Lemma email_rejects_incomplete_witness :
  handleEmail browser (setFormState (withTeacherName EmptyString smithForm)
                                    initialState)
  = (setFormState (withTeacherName EmptyString smithForm) initialState,
     [Alert "Please provide a Teacher Name and Date before sending an email."]).
Proof.
  apply (email_rejects_incomplete browser
           (setFormState (withTeacherName EmptyString smithForm) initialState)).
  left. reflexivity.
Defined.

Lemma upperHex_unreserved (n : N) :
  (n < 16)%N -> JsURI.unreserved (JsURI.upperHex n) = true.
Proof.
  intros Hn. rewrite <- (N2Nat.id n).
  assert (Hk : (N.to_nat n < 16)%nat) by lia.
  revert Hk. generalize (N.to_nat n). intros k Hk.
  do 16 (destruct k as [|k]; [reflexivity|]). lia.
Qed.

Lemma unreserved_neq (x c : ascii) :
  JsURI.unreserved x = true -> JsURI.unreserved c = false ->
  Ascii.eqb x c = false.
Proof. intros Hx Hc. apply Ascii.eqb_neq. intros ->. congruence. Qed.

(** An encoded component holds nothing but unreserved characters and the
    percent sign. *)
Lemma count_encodeURIComponent (c : ascii) (s : string) :
  JsURI.unreserved c = false -> Ascii.eqb "%" c = false ->
  count c (JsURI.encodeURIComponent s) = 0%nat.
Proof.
  intros Hc Hp. induction s as [|x s IH]; [reflexivity|].
  simpl. destruct (JsURI.unreserved x) eqn:Hx.
  - rewrite count_cons, IH, (unreserved_neq x c Hx Hc). reflexivity.
  - pose proof (N_ascii_bounded x) as Hb.
    assert (Hhi : (N_of_ascii x / 16 < 16)%N)
      by (apply N.Div0.div_lt_upper_bound; lia).
    assert (Hlo : (N_of_ascii x mod 16 < 16)%N) by (apply N.mod_lt; lia).
    rewrite !count_cons, IH, Hp.
    rewrite (unreserved_neq _ c (upperHex_unreserved _ Hhi) Hc).
    rewrite (unreserved_neq _ c (upperHex_unreserved _ Hlo) Hc).
    reflexivity.
Qed.



Lemma bullet_clean (key : StrategyKey) :
  count LF ("- " ++ STRATEGY_LABELS key) = 0%nat.
Proof. destruct key; reflexivity. Qed.

Lemma key_listed (key : StrategyKey) : In key STRATEGY_KEYS.
Proof. destruct key; simpl; tauto. Qed.

(** X8.  When a strategy flag is set, the body of the feedback lists the
    label of every set flag, in the order of the keys, one line each behind
    a dash, where the body without flags has its [None specified]. *)
Theorem feedback_lists_set_strategies (f : Observation) (key0 : StrategyKey) :
  getStrategy (strategies f) key0 = true ->
  split LF (strategiesList f)
  = map (fun key => "- " ++ STRATEGY_LABELS key)
        (List.filter (fun key => getStrategy (strategies f) key) STRATEGY_KEYS)
  /\ body f
     = ("Hi " ++ teacherName f ++ "," ++ nl ++ nl
        ++ "Here is some feedback from a recent learning walk." ++ nl ++ nl
        ++ "Observation Notes:" ++ nl ++ observationNotes f ++ nl ++ nl
        ++ "Teaching Strategies Observed:")
       ++ String LF (strategiesList f ++ String LF (nl ++ "Best regards,"))
  /\ In ("- " ++ STRATEGY_LABELS key0) (split LF (body f)).
Proof.
  intros Hset.
  assert (Hin : In key0 (List.filter (fun key => getStrategy (strategies f) key)
                                     STRATEGY_KEYS)).
  { apply List.filter_In. split; [apply key_listed | exact Hset]. }
  assert (Hsplit : split LF (strategiesList f)
                   = map (fun key => "- " ++ STRATEGY_LABELS key)
                         (List.filter (fun key => getStrategy (strategies f) key)
                                      STRATEGY_KEYS)).
  { unfold strategiesList, nl. apply split_join_clean.
    - destruct (List.filter _ STRATEGY_KEYS); [destruct Hin | discriminate].
    - apply List.Forall_forall. intros x Hx.
      apply List.in_map_iff in Hx. destruct Hx as (key & <- & _).
      apply bullet_clean. }
  assert (Htruthy : truthy (strategiesList f) = true).
  { unfold strategiesList.
    destruct (List.filter _ STRATEGY_KEYS) as [|k [|k' l]];
      [destruct Hin | reflexivity | reflexivity]. }
  assert (Hbody : body f
     = ("Hi " ++ teacherName f ++ "," ++ nl ++ nl
        ++ "Here is some feedback from a recent learning walk." ++ nl ++ nl
        ++ "Observation Notes:" ++ nl ++ observationNotes f ++ nl ++ nl
        ++ "Teaching Strategies Observed:")
       ++ String LF (strategiesList f ++ String LF (nl ++ "Best regards,"))).
  { unfold body, or_else. rewrite Htruthy. unfold nl, str1.
    repeat rewrite ?append_assoc, ?append_cons, ?append_nil_l. reflexivity. }
  split; [exact Hsplit|]. split; [exact Hbody|].
  rewrite Hbody, !split_append, Hsplit.
  apply List.in_or_app. right. apply List.in_or_app. left.
  apply List.in_map_iff. exists key0. split; [reflexivity | exact Hin].
Qed.

Lemma feedback_lists_set_strategies_witness :
  split LF (strategiesList (withStrategies yesNoYesNo smithForm))
  = map (fun key => "- " ++ STRATEGY_LABELS key)
        (List.filter
           (fun key => getStrategy (strategies (withStrategies yesNoYesNo smithForm)) key)
           STRATEGY_KEYS)
  /\ body (withStrategies yesNoYesNo smithForm)
     = ("Hi " ++ teacherName (withStrategies yesNoYesNo smithForm) ++ "," ++ nl ++ nl
        ++ "Here is some feedback from a recent learning walk." ++ nl ++ nl
        ++ "Observation Notes:" ++ nl
        ++ observationNotes (withStrategies yesNoYesNo smithForm) ++ nl ++ nl
        ++ "Teaching Strategies Observed:")
       ++ String LF (strategiesList (withStrategies yesNoYesNo smithForm)
                     ++ String LF (nl ++ "Best regards,"))
  /\ In ("- " ++ STRATEGY_LABELS key_dumtums)
        (split LF (body (withStrategies yesNoYesNo smithForm))).
Proof.
  apply (feedback_lists_set_strategies (withStrategies yesNoYesNo smithForm)
           key_dumtums).
  reflexivity.
Defined.

End FeedbackFacts.

(** ** The details modal *)

Module ModalFacts.
Import JsString Types Constants App View.

(** X9.  The strategies list of the details modal is never empty: it shows
    the labels of the set flags in the order of the keys, or the one item
    [None observed] when no flag is set, and never both. *)
Theorem modal_lists_strategies (o : Observation) :
  modalStrategyItems o <> []
  /\ ((forall key, getStrategy (strategies o) key = false) ->
      modalStrategyItems o = ["None observed"])
  /\ (forall key0, getStrategy (strategies o) key0 = true ->
      modalStrategyItems o
      = map STRATEGY_LABELS
          (List.filter (fun key => getStrategy (strategies o) key) STRATEGY_KEYS)
      /\ In (STRATEGY_LABELS key0) (modalStrategyItems o)
      /\ ~ In "None observed" (modalStrategyItems o)).
Proof.
  unfold modalStrategyItems, STRATEGY_KEYS.
  destruct (strategies o) as [a b c d]. split; [|split].
  - destruct a, b, c, d; discriminate.
  - intros H.
    pose proof (H key_miniWhiteboards) as Ha. pose proof (H key_thinkPairShare) as Hb.
    pose proof (H key_dumtums) as Hc. pose proof (H key_coldCalling) as Hd.
    simpl in Ha, Hb, Hc, Hd. subst. reflexivity.
  - intros key0 H.
    destruct key0, a, b, c, d; simpl in H; try discriminate;
      (split; [reflexivity|]; split;
       [simpl; tauto
       | simpl; intros Hin;
         repeat (destruct Hin as [Hin | Hin]; [discriminate Hin|]);
         exact Hin]).
Qed.

End ModalFacts.

(** ** The export: the file name and the date and time cells *)

Module ExportCellFacts.
Import JsString JsDate Types Constants App View StringFacts DateFacts Spec
  ParseFacts Examples.

Lemma count_isoYear (c : ascii) (y : Z) :
  isDigit c = false -> Ascii.eqb "+" c = false -> Ascii.eqb "-" c = false ->
  count c (isoYear y) = 0%nat.
Proof.
  intros Hd Hp Hm. unfold isoYear.
  destruct ((0 <=? y) && (y <=? 9999)); [now apply count_pad|].
  destruct (y <? 0); rewrite append_cons, append_nil_l, count_cons, ?Hp, ?Hm,
    count_pad by assumption; reflexivity.
Qed.

(** The date part of an ISO text: everything before its [T]. *)
Lemma split_T_toISOString (t : Z) :
  nth 0 (split "T" (toISOString t)) "undefined"
  = isoYear (YearFromTime t) ++ "-" ++ pad 2 (MonthFromTime t + 1) ++ "-"
    ++ pad 2 (DateFromTime t).
Proof.
  unfold toISOString.
  replace (isoYear (YearFromTime t) ++ "-" ++ pad 2 (MonthFromTime t + 1) ++ "-"
           ++ pad 2 (DateFromTime t) ++ "T" ++ pad 2 (HourFromTime t) ++ ":"
           ++ pad 2 (MinFromTime t) ++ ":" ++ pad 2 (SecFromTime t) ++ "."
           ++ pad 3 (msFromTime t) ++ "Z")
    with ((isoYear (YearFromTime t) ++ "-" ++ pad 2 (MonthFromTime t + 1) ++ "-"
           ++ pad 2 (DateFromTime t))
          ++ String "T" (pad 2 (HourFromTime t) ++ ":"
                         ++ pad 2 (MinFromTime t) ++ ":"
                         ++ pad 2 (SecFromTime t) ++ "."
                         ++ pad 3 (msFromTime t) ++ "Z"))
    by (now rewrite !append_assoc).
  rewrite split_append, split_none; [reflexivity|].
  rewrite !count_append, count_isoYear, !count_pad by reflexivity. reflexivity.
Qed.

(** X10.  The exported file is named after the UTC date of the click:
    [learning_walks_], the year, month and day of the clock's time value
    as [toISOString] writes them, [.csv]. *)
Theorem export_filename_date (P : Platform) :
  exportFilename P
  = "learning_walks_" ++ isoYear (YearFromTime (now P)) ++ "-"
    ++ pad 2 (MonthFromTime (now P) + 1) ++ "-" ++ pad 2 (DateFromTime (now P))
    ++ ".csv".
Proof.
  unfold exportFilename. rewrite split_T_toISOString.
  now rewrite !append_assoc.
Qed.

Lemma HourFromTime_MakeDate (day h mi : Z) :
  0 <= h <= 23 -> 0 <= mi <= 59 ->
  HourFromTime (MakeDate day (MakeTime h mi 0 0)) = h.
Proof.
  intros Hh Hmi.
  unfold HourFromTime, MakeDate, MakeTime, msPerDay, msPerHour, msPerMinute,
    msPerSecond.
  Z.div_mod_to_equations. lia.
Qed.

Lemma MinFromTime_MakeDate (day h mi : Z) :
  0 <= h <= 23 -> 0 <= mi <= 59 ->
  MinFromTime (MakeDate day (MakeTime h mi 0 0)) = mi.
Proof.
  intros Hh Hmi.
  unfold MinFromTime, MakeDate, MakeTime, msPerDay, msPerHour, msPerMinute,
    msPerSecond.
  Z.div_mod_to_equations. lia.
Qed.



End ExportCellFacts.

(** ** The store over a session *)

Module StorageFacts.
Import JsString Types Constants App View Persistence StringFacts JsonFacts
  PersistClaims ViewFacts Examples.

Lemma saveEffect_other_key (P : Platform) (ls : gmap string string)
  (st : AppState) (key : string) :
  key <> storageKey -> fst (saveEffect P ls st) !! key = ls !! key.
Proof.
  intros Hk. unfold saveEffect, setItem.
  destruct (storageAccepts P storageKey _); [|reflexivity].
  cbn [fst]. now rewrite lookup_insert_ne.
Qed.

Lemma dispatch_store (P : Platform) (ev : Event) (w : World) :
  fst (fst (dispatch P ev w))
  = if setsObservations ev (snd w)
    then fst (saveEffect P (fst w) (fst (handleEvent P ev (snd w))))
    else fst w.
Proof.
  unfold dispatch. destruct (handleEvent P ev (snd w)) as [st' effects].
  destruct (setsObservations ev (snd w)); [|reflexivity].
  cbn [fst]. destruct (saveEffect P (fst w) st'); reflexivity.
Qed.

(** X12.  A session writes to one slot of the store only: whatever else the
    origin keeps there is as it was, whether the writes are taken or
    refused. *)
Theorem run_touches_one_key (events : list (Platform * Event)) (w : World)
  (key : string) :
  key <> storageKey ->
  fst (fst (run events w)) !! key = fst w !! key.
Proof.
  intros Hk. revert w. induction events as [|[P ev] rest IH]; intros w;
    [reflexivity|].
  cbn [run]. pose proof (dispatch_store P ev w) as Hd.
  destruct (dispatch P ev w) as [w1 effects1]. cbn [fst] in Hd.
  specialize (IH w1). destruct (run rest w1) as [w2 effects2].
  cbn [fst]. cbn [fst] in IH. rewrite IH, Hd.
  destruct (setsObservations ev (snd w)); [|reflexivity].
  now apply saveEffect_other_key.
Qed.

Lemma run_touches_one_key_witness :
  fst (fst (run [(browser, SaveClicked)]
                (<["theme" := "dark"]> ∅, smithFilled))) !! "theme"
  = fst (<["theme" := "dark"]> (∅ : gmap string string), smithFilled) !! "theme".
Proof.
  apply (run_touches_one_key [(browser, SaveClicked)]
           (<["theme" := "dark"]> ∅, smithFilled) "theme").
  unfold storageKey. discriminate.
Defined.

Lemma saveEffect_accepting (P : Platform) (ls : gmap string string)
  (st : AppState) :
  accepting P ->
  saveEffect P ls st
  = (<[storageKey := JSON.stringify (observations_value (observations st))]> ls,
     []).
Proof. intros Hacc. unfold saveEffect, setItem. now rewrite Hacc. Qed.

Lemma saveEffect_refusing (P : Platform) (ls : gmap string string)
  (st : AppState) :
  refusing P ->
  saveEffect P ls st
  = (ls, [ConsoleError "Failed to save observations to local storage"]).
Proof. intros Href. unfold saveEffect, setItem. now rewrite Href. Qed.

Lemma dispatch_synced (P : Platform) (ev : Event) (w : World) :
  accepting P -> synced w -> synced (fst (dispatch P ev w)).
Proof.
  intros Hacc Hs. unfold synced.
  rewrite dispatch_store, dispatch_state.
  pose proof (handleEvent_observations P ev (snd w)) as Ho.
  destruct (setsObservations ev (snd w)).
  - rewrite saveEffect_accepting by assumption. cbn [fst].
    unfold getItem. now rewrite lookup_insert_eq.
  - rewrite Ho. exact Hs.
Qed.

(** X13.  In browsers that take the writes, the store follows the state: if
    the slot holds the text of the collection before a session, it holds the
    text of the collection after it, whatever the events were. *)
Theorem run_keeps_store_synced (events : list (Platform * Event)) (w : World) :
  Forall (fun pe => accepting (fst pe)) events ->
  synced w -> synced (fst (run events w)).
Proof.
  intros Hall. revert w. induction Hall as [|[P ev] rest HP Hrest IH];
    intros w Hs; [exact Hs|].
  cbn [run]. pose proof (dispatch_synced P ev w HP Hs) as Hd.
  destruct (dispatch P ev w) as [w1 effects1]. cbn [fst] in Hd.
  specialize (IH w1 Hd). destruct (run rest w1) as [w2 effects2]. exact IH.
Qed.

Lemma run_keeps_store_synced_witness :
  synced (fst (run [(browser, SaveClicked); (browser, ViewDetailsClicked 0)]
                   (<[storageKey := "[]"]> ∅, smithFilled))).
Proof.
  apply (run_keeps_store_synced
           [(browser, SaveClicked); (browser, ViewDetailsClicked 0)]
           (<[storageKey := "[]"]> ∅, smithFilled)).
  - repeat constructor.
  - reflexivity.
Defined.

Lemma loadEffect_synced (ls : gmap string string) (C : list Observation)
  (st : AppState) :
  getItem ls storageKey = Some (JSON.stringify (observations_value C)) ->
  loadEffect ls st = Some (setObservations C st, [])
  /\ loadSetsObservations ls = true.
Proof.
  intros Hs. unfold loadEffect, loadSetsObservations. rewrite Hs.
  rewrite truthy_stringify_observations.
  rewrite parse_stringify by apply numFree_observations.
  now rewrite asObservations_value.
Qed.

(** X14.  Reloading the page: when the slot holds the text of the state's
    collection and the browser takes the writes, mounting the component on
    that store shows the same collection under an empty form, logs nothing,
    and leaves the store as it found it (the empty collection the first
    render writes is written over). *)
Theorem mount_restores_collection (P : Platform) (w : World) :
  accepting P -> synced w ->
  mount P (fst w)
  = Some ((fst w, setObservations (observations (snd w)) initialState), []).
Proof.
  intros Hacc Hs. unfold mount.
  destruct (loadEffect_synced (fst w) (observations (snd w)) initialState Hs)
    as [Hload Hsets].
  rewrite Hload, Hsets. cbn [mbind option_bind].
  rewrite !saveEffect_accepting by assumption.
  cbn [observations setObservations app].
  rewrite insert_insert_eq, insert_id by exact Hs. reflexivity.
Qed.

Lemma mount_restores_collection_witness :
  mount browser (fst (fst (run [(browser, SaveClicked)]
                               (<[storageKey := "[]"]> ∅, smithFilled))))
  = Some ((fst (fst (run [(browser, SaveClicked)]
                         (<[storageKey := "[]"]> ∅, smithFilled))),
           setObservations
             (observations
                (snd (fst (run [(browser, SaveClicked)]
                               (<[storageKey := "[]"]> ∅, smithFilled)))))
             initialState), []).
Proof.
  apply (mount_restores_collection browser
           (fst (run [(browser, SaveClicked)]
                     (<[storageKey := "[]"]> ∅, smithFilled)))).
  - intros key value. reflexivity.
  - reflexivity.
Defined.

(** X15.  Mounting on a store whose slot is absent, empty or not JSON starts
    with no observations and, when the browser takes the write, puts the
    text of the empty collection in the slot: text that could not be read
    is written over.  Only the unreadable text is logged. *)
Theorem mount_unreadable_store (P : Platform) (ls : gmap string string) :
  accepting P ->
  (getItem ls storageKey = None \/ getItem ls storageKey = Some EmptyString ->
   mount P ls = Some ((<[storageKey := "[]"]> ls, initialState), []))
  /\ (forall s, getItem ls storageKey = Some s -> s <> EmptyString ->
                JSON.parse s = None ->
                mount P ls
                = Some ((<[storageKey := "[]"]> ls, initialState),
                        [ConsoleError
                           "Failed to load observations from local storage"])).
Proof.
  intros Hacc. split.
  - intros [Hn | He]; unfold mount, loadEffect, loadSetsObservations;
      rewrite ?Hn, ?He; cbn [truthy andb mbind option_bind];
      rewrite saveEffect_accepting by assumption; reflexivity.
  - intros s Hs Hne Hp. apply truthy_iff in Hne.
    unfold mount, loadEffect, loadSetsObservations. rewrite Hs, Hne, Hp.
    cbn [andb mbind option_bind].
    rewrite saveEffect_accepting by assumption. reflexivity.
Qed.

Lemma mount_unreadable_store_witness :
  mount browser (<[storageKey := "[{"]> ∅)
  = Some ((<[storageKey := "[]"]> (<[storageKey := "[{"]> ∅), initialState),
          [ConsoleError "Failed to load observations from local storage"]).
Proof.
  apply (proj2 (mount_unreadable_store browser (<[storageKey := "[{"]> ∅)
                  (fun key value => eq_refl)) "[{").
  - reflexivity.
  - discriminate.
  - reflexivity.
Defined.

(** X16.  A save in a browser that refuses the write (quota, storage
    disabled): the record is in the collection on screen and the form is
    reset as after any save, the store is what it was, and the only trace
    is a line on the console; no alert tells the user. *)
Theorem save_with_refusing_store (P : Platform) (w : World) :
  refusing P -> isFormValid (formState (snd w)) = true ->
  dispatch P SaveClicked w
  = ((fst w,
      resetForm (setObservations
                   (newObservation P (formState (snd w))
                    :: observations (snd w)) (snd w))),
     [ConsoleError "Failed to save observations to local storage"]).
Proof.
  intros Href Hv. unfold dispatch. cbn [handleEvent setsObservations].
  unfold saveDisabled. rewrite Hv. cbn [negb].
  rewrite SaveClaims.handleSave_valid by assumption.
  now rewrite saveEffect_refusing.
Qed.

Lemma save_with_refusing_store_witness :
  dispatch fullStore SaveClicked (∅, smithFilled)
  = ((fst (∅ : gmap string string, smithFilled),
      resetForm (setObservations
                   (newObservation fullStore
                      (formState (snd (∅ : gmap string string, smithFilled)))
                    :: observations (snd (∅ : gmap string string, smithFilled)))
                   (snd (∅ : gmap string string, smithFilled)))),
     [ConsoleError "Failed to save observations to local storage"]).
Proof.
  apply (save_with_refusing_store fullStore (∅, smithFilled)).
  - intros key value. reflexivity.
  - reflexivity.
Defined.

End StorageFacts.

(** ** The ids of saved records *)

Module IdFacts.
Import JsString JsDate Types Constants App View StringFacts DateFacts
  CalendarFacts ParseFacts ViewFacts Examples.

Lemma pad3_chars (n : Z) :
  pad 3 n
  = String (digitChar (n / 10 / 10 mod 10))
      (String (digitChar (n / 10 mod 10))
         (String (digitChar (n mod 10)) EmptyString)).
Proof. reflexivity. Qed.

Lemma pad6_chars (n : Z) :
  pad 6 n
  = String (digitChar (n / 10 / 10 / 10 / 10 / 10 mod 10))
      (String (digitChar (n / 10 / 10 / 10 / 10 mod 10))
         (String (digitChar (n / 10 / 10 / 10 mod 10))
            (String (digitChar (n / 10 / 10 mod 10))
               (String (digitChar (n / 10 mod 10))
                  (String (digitChar (n mod 10)) EmptyString))))).
Proof. reflexivity. Qed.

Lemma digits_pad3 (n : Z) (rest : string) (acc : Z) :
  0 <= n <= 999 ->
  digits 3 (pad 3 n ++ rest) acc = Some (1000 * acc + n, rest).
Proof.
  intros Hn. rewrite pad3_chars, !append_cons, append_nil_l.
  rewrite !digits_digitChar by apply mod10_range.
  cbn [digits]. f_equal. f_equal. Z.div_mod_to_equations. lia.
Qed.

Lemma digits_pad6 (n : Z) (rest : string) (acc : Z) :
  0 <= n <= 999999 ->
  digits 6 (pad 6 n ++ rest) acc = Some (1000000 * acc + n, rest).
Proof.
  intros Hn. rewrite pad6_chars, !append_cons, append_nil_l.
  rewrite !digits_digitChar by apply mod10_range.
  cbn [digits]. f_equal. f_equal. Z.div_mod_to_equations. lia.
Qed.

(** The year of an ISO text reads back as the year. *)
Lemma parseYear_isoYear (y : Z) (rest : string) :
  -999999 <= y <= 999999 -> parseYear (isoYear y ++ rest) = Some (y, rest).
Proof.
  intros Hy. unfold isoYear.
  destruct (Z.leb_spec 0 y) as [H0 | H0];
    [destruct (Z.leb_spec y 9999) as [H1 | H1]|]; cbn [andb].
  - now apply parseYear_pad4.
  - destruct (Z.ltb_spec y 0); [lia|].
    rewrite append_cons, append_nil_l, append_cons.
    unfold parseYear. cbv beta iota.
    rewrite digits_pad6 by lia. f_equal. f_equal. lia.
  - destruct (Z.ltb_spec y 0); [|lia].
    rewrite append_cons, append_nil_l, append_cons.
    unfold parseYear. cbv beta iota.
    rewrite digits_pad6 by lia. cbn [mbind option_bind].
    destruct (Z.eqb_spec (1000000 * 0 + Z.abs y) 0); [lia|].
    f_equal. f_equal. lia.
Qed.

Lemma MonthFromDay_range (leap : bool) (dayInYear : Z) :
  0 <= MonthFromDay leap dayInYear <= 11.
Proof.
  unfold MonthFromDay.
  repeat match goal with
         | |- context [Z.ltb ?a ?b] => destruct (Z.ltb a b); try lia
         end; lia.
Qed.

Lemma DateFromDay_range (leap : bool) (dayInYear : Z) :
  0 <= dayInYear < (if leap then 366 else 365) ->
  1 <= dayInYear - monthStart leap (MonthFromDay leap dayInYear) + 1 <= 31.
Proof.
  intros Hd. unfold MonthFromDay.
  destruct leap; unfold monthStart; cbv zeta;
    repeat match goal with
           | |- context [Z.ltb ?a ?b] => destruct (Z.ltb_spec a b); try lia
           end; lia.
Qed.

Lemma DayWithinYear_range (t : Z) :
  0 <= DayWithinYear t < (if InLeapYear (YearFromTime t) then 366 else 365).
Proof.
  unfold DayWithinYear, YearFromTime.
  pose proof (YearFromDay_window (Day t)) as Hw.
  rewrite DayFromYear_succ in Hw. lia.
Qed.

Lemma DateFromTime_range (t : Z) : 1 <= DateFromTime t <= 31.
Proof.
  unfold DateFromTime, MonthFromTime.
  apply DateFromDay_range, DayWithinYear_range.
Qed.

Lemma MonthFromTime_range (t : Z) : 0 <= MonthFromTime t <= 11.
Proof. apply MonthFromDay_range. Qed.

(** The years of the time values that are dates. *)
Lemma YearFromTime_range (t : Z) :
  Z.abs t <= 8640000000000000 -> -999999 <= YearFromTime t <= 999999.
Proof.
  intros Ht. unfold YearFromTime.
  pose proof (YearFromDay_window (Day t)) as Hw.
  assert (Hday : -100000000 <= Day t <= 100000000).
  { unfold Day, msPerDay. Z.div_mod_to_equations. lia. }
  set (y := YearFromDay (Day t)) in *.
  destruct (Z.le_gt_cases y 999999) as [Hhi | Hhi].
  - destruct (Z.le_gt_cases (-999999) y) as [Hlo | Hlo]; [lia|].
    pose proof (DayFromYear_mono (y + 1) (-999999) ltac:(lia)) as Hm.
    unfold DayFromYear in Hm at 2.
    assert (365 * (-999999 - 1970) + (-999999 - 1969) / 4 - (-999999 - 1901) / 100
            + (-999999 - 1601) / 400 < -100000000) by (vm_compute; reflexivity).
    lia.
  - pose proof (DayFromYear_mono 999999 y ltac:(lia)) as Hm.
    unfold DayFromYear in Hm at 1.
    assert (100000000 < 365 * (999999 - 1970) + (999999 - 1969) / 4
                        - (999999 - 1901) / 100 + (999999 - 1601) / 400)
      by (vm_compute; reflexivity).
    lia.
Qed.

Lemma time_fields_range (t : Z) :
  0 <= HourFromTime t <= 23 /\ 0 <= MinFromTime t <= 59
  /\ 0 <= SecFromTime t <= 59 /\ 0 <= msFromTime t <= 999.
Proof.
  unfold HourFromTime, MinFromTime, SecFromTime, msFromTime, msPerSecond.
  pose proof (Z.mod_pos_bound (t / msPerHour) 24).
  pose proof (Z.mod_pos_bound (t / msPerMinute) 60).
  pose proof (Z.mod_pos_bound (t / 1000) 60).
  pose proof (Z.mod_pos_bound t 1000). lia.
Qed.

(** The fields [toISOString] writes are the fields the parser reads. *)
Lemma parseFormat_toISOString (t : Z) :
  Z.abs t <= 8640000000000000 ->
  parseFormat (toISOString t)
  = Some {| fYear := YearFromTime t; fMonth := MonthFromTime t + 1;
            fDay := DateFromTime t; fHour := HourFromTime t;
            fMinute := MinFromTime t; fSecond := SecFromTime t;
            fMilli := msFromTime t; fZone := ZoneOffset 0 |}.
Proof.
  intros Ht.
  pose proof (YearFromTime_range t Ht) as Hy.
  pose proof (MonthFromTime_range t) as Hmo.
  pose proof (DateFromTime_range t) as Hd.
  destruct (time_fields_range t) as (Hh & Hmi & Hs & Hms).
  unfold toISOString, parseFormat, parseDatePart.
  rewrite parseYear_isoYear by assumption. cbn [mbind option_bind].
  rewrite expect_here, digits_pad2 by lia. cbn [mbind option_bind].
  rewrite expect_here, digits_pad2 by lia. cbn [mbind option_bind].
  rewrite append_cons, append_nil_l.
  unfold parseTimePart.
  rewrite digits_pad2 by lia. cbn [mbind option_bind].
  rewrite expect_here. cbn [mbind option_bind].
  rewrite digits_pad2 by lia. cbn [mbind option_bind].
  rewrite expect_here, digits_pad2 by lia. cbn [mbind option_bind].
  rewrite expect_here, digits_pad3 by lia. cbn [mbind option_bind].
  cbn [parseZone]. cbn [mbind option_bind].
  repeat f_equal; lia.
Qed.

(** A time value is the day and the time of day its fields give. *)
Lemma time_of_fields (t : Z) :
  t = MakeDate (DayFromYear (YearFromTime t)
                + monthStart (InLeapYear (YearFromTime t)) (MonthFromTime t)
                + DateFromTime t - 1)
               (MakeTime (HourFromTime t) (MinFromTime t) (SecFromTime t)
                         (msFromTime t)).
Proof.
  unfold DateFromTime, DayWithinYear.
  replace (DayFromYear (YearFromTime t)
           + monthStart (InLeapYear (YearFromTime t)) (MonthFromTime t)
           + (Day t - DayFromYear (YearFromTime t)
              - monthStart (InLeapYear (YearFromTime t)) (MonthFromTime t) + 1)
           - 1) with (Day t) by lia.
  unfold MakeDate, MakeTime, Day, HourFromTime, MinFromTime, SecFromTime,
    msFromTime, msPerDay, msPerHour, msPerMinute, msPerSecond.
  Z.div_mod_to_equations. lia.
Qed.

(** Two instants with the same ISO text are the same instant. *)
Lemma toISOString_inj (t1 t2 : Z) :
  Z.abs t1 <= 8640000000000000 -> Z.abs t2 <= 8640000000000000 ->
  toISOString t1 = toISOString t2 -> t1 = t2.
Proof.
  intros H1 H2 Heq.
  pose proof (parseFormat_toISOString t1 H1) as P1.
  pose proof (parseFormat_toISOString t2 H2) as P2.
  rewrite Heq, P2 in P1. injection P1 as Hy Hmo Hd Hh Hmi Hs Hms.
  assert (Hmo' : MonthFromTime t2 = MonthFromTime t1) by lia.
  rewrite (time_of_fields t1), (time_of_fields t2).
  now rewrite Hy, Hmo', Hd, Hh, Hmi, Hs, Hms.
Qed.

Lemma dispatch_ids (P : Platform) (ev : Event) (w : World) :
  map id (observations (snd (fst (dispatch P ev w))))
  = if setsObservations ev (snd w)
    then toISOString (now P) :: map id (observations (snd w))
    else map id (observations (snd w)).
Proof.
  rewrite dispatch_state, handleEvent_observations.
  destruct (setsObservations ev (snd w)); reflexivity.
Qed.



End IdFacts.

(** ** The form *)

Module FormFacts.
Import JsString Types Constants App View StringFacts ViewFacts StorageFacts
  Examples.

(** X18.  Two changes of the form, one after the other: when they come from
    the same control the later value stands, when they come from different
    controls the order does not matter. *)
Theorem input_changes_compose (e1 e2 : InputChange) (st : AppState) :
  handleInputChange e1 (handleInputChange e2 st)
  = if String.eqb (inputName e1) (inputName e2)
    then handleInputChange e1 st
    else handleInputChange e2 (handleInputChange e1 st).
Proof. destruct e1, e2; reflexivity. Qed.

(** X19.  A strategy check box sets its own flag and nothing else: the
    other three flags, the other fields of the form, the collection and the
    modal are as before. *)
Theorem strategy_change_sets_one_flag (name : StrategyKey) (checked : bool)
  (st : AppState) :
  let st' := handleStrategyChange name checked st in
  getStrategy (strategies (formState st')) name = checked
  /\ (forall key, key <> name ->
        getStrategy (strategies (formState st')) key
        = getStrategy (strategies (formState st)) key)
  /\ id (formState st') = id (formState st)
  /\ dateTime (formState st') = dateTime (formState st)
  /\ yearGroup (formState st') = yearGroup (formState st)
  /\ teacherName (formState st') = teacherName (formState st)
  /\ observationNotes (formState st') = observationNotes (formState st)
  /\ observations st' = observations st
  /\ selectedObservation st' = selectedObservation st.
Proof.
  cbv zeta. split; [destruct name; reflexivity|].
  split; [|repeat split].
  intros key Hk. destruct name, key; try reflexivity; contradiction.
Qed.

Lemma dispatch_no_save (P : Platform) (ev : Event) (w : World) :
  match ev with SaveClicked => False | _ => True end ->
  fst (fst (dispatch P ev w)) = fst w
  /\ observations (snd (fst (dispatch P ev w))) = observations (snd w).
Proof.
  intros Hev. rewrite dispatch_store, dispatch_state, handleEvent_observations.
  destruct ev; try contradiction; split; reflexivity.
Qed.

(** X20.  Only Save writes: a session without a click on Save leaves the
    store and the collection exactly as they were, whatever was typed,
    ticked, sent, exported or looked at. *)
Theorem run_without_save (events : list (Platform * Event)) (w : World) :
  saveClicks events = 0%nat ->
  fst (fst (run events w)) = fst w
  /\ observations (snd (fst (run events w))) = observations (snd w).
Proof.
  revert w. induction events as [|[P ev] rest IH]; intros w Hn;
    [split; reflexivity|].
  assert (Hev : match ev with SaveClicked => False | _ => True end).
  { unfold saveClicks in Hn. cbn [List.filter snd] in Hn.
    destruct ev; try exact I. cbn [length] in Hn. discriminate. }
  assert (Hrest : saveClicks rest = 0%nat).
  { unfold saveClicks in *. cbn [List.filter snd] in Hn.
    destruct ev; try exact Hn. contradiction. }
  cbn [run]. destruct (dispatch_no_save P ev w Hev) as [Hs Ho].
  destruct (dispatch P ev w) as [w1 effects1]. cbn [fst] in Hs, Ho.
  destruct (IH w1 Hrest) as [Hs' Ho'].
  destruct (run rest w1) as [w2 effects2]. cbn [fst] in *.
  split; congruence.
Qed.

Lemma run_without_save_witness :
  fst (fst (run [(browser, InputChanged (change_teacherName "A. Jones"));
                 (browser, SendFeedbackClicked);
                 (browser, ExportClicked);
                 (browser, ViewDetailsClicked 0);
                 (browser, ModalClosed)]
                (∅, smithAfterSave)))
  = fst (∅ : gmap string string, smithAfterSave)
  /\ observations
       (snd (fst (run [(browser, InputChanged (change_teacherName "A. Jones"));
                       (browser, SendFeedbackClicked);
                       (browser, ExportClicked);
                       (browser, ViewDetailsClicked 0);
                       (browser, ModalClosed)]
                      (∅, smithAfterSave))))
     = observations (snd (∅ : gmap string string, smithAfterSave)).
Proof.
  apply (run_without_save
           [(browser, InputChanged (change_teacherName "A. Jones"));
            (browser, SendFeedbackClicked);
            (browser, ExportClicked);
            (browser, ViewDetailsClicked 0);
            (browser, ModalClosed)]
           (∅, smithAfterSave)).
  reflexivity.
Defined.

(** X21.  In a browser whose anchors have no [download] property the export
    of a collection that is not empty does nothing at all: no file, no
    alert, no change of state. *)
Theorem export_unsupported_is_silent (P : Platform) (st : AppState) :
  downloadSupported P = false -> observations st <> [] ->
  handleExport P st = (st, [])
  /\ handleEvent P ExportClicked st = (st, []).
Proof.
  intros Hd Hne. cbn [handleEvent]. rewrite handleExport_guard.
  unfold exportDisabled. destruct (observations st); [contradiction|].
  cbn [length Nat.eqb]. rewrite Hd. split; reflexivity.
Qed.

Lemma export_unsupported_is_silent_witness :
  handleExport oldBrowser smithAfterSave = (smithAfterSave, [])
  /\ handleEvent oldBrowser ExportClicked smithAfterSave = (smithAfterSave, []).
Proof.
  apply (export_unsupported_is_silent oldBrowser smithAfterSave).
  - reflexivity.
  - discriminate.
Defined.

End FormFacts.

(** ** Mounting *)

Module MountFacts.
Import JsString Types Constants App View Persistence StringFacts JsonFacts
  PersistClaims ViewFacts StorageFacts Examples.



End MountFacts.
